(** * csv_analyzer: a shallow embedding of the backend and the IPC layer

    The development follows the Python sources of the repository:
    - [core/ipc.py]: [Message], [Response], [BackendWorker._handle_message],
      the worker loop and [IPCClient.send_message];
    - [backend/engine.py]: [DataEngine.execute_query], [load_csv],
      [_sanitize_table_name], [drop_table], [get_table_data], [save_view],
      [delete_view], [export_to_csv];
    - [backend/analyzer.py]: [DataAnalyzer.analyze_table], [clear_cache],
      [_categorize_dtype], [get_column_distribution].

    DuckDB is not part of the repository: it is a parameter of the model
    (a function from a database state and an SQL text to a new state and
    either a raised exception or a cursor), and so is Python's Unicode
    database ([str.isalnum] and [str.isdigit] on one character).  A
    Python [str] is held as its UTF-8 bytes.  Python exceptions are values
    carrying the text [str(e)]. *)

From Stdlib Require Import ZArith QArith Qround Lia.
From Stdlib Require Import Ascii String DecimalString DecimalNat.
From stdpp Require Import base list gmap strings.

Import ListNotations.
Local Open Scope string_scope.
#[local] Set Warnings "-register-all".

(* ------------------------------------------------------------------ *)
(** ** Python builtins on ASCII strings *)

Module Py.

(** [str.isspace] restricted to ASCII: the six C whitespace characters
    and the separators \x1c .. \x1f. *)
Definition isspace (c : ascii) : bool :=
  let n := nat_of_ascii c in
  (n =? 32)%nat || ((9 <=? n)%nat && (n <=? 13)%nat)
  || ((28 <=? n)%nat && (n <=? 31)%nat).

Definition isdigit (c : ascii) : bool :=
  let n := nat_of_ascii c in ((48 <=? n)%nat && (n <=? 57)%nat).

Definition isupper (c : ascii) : bool :=
  let n := nat_of_ascii c in ((65 <=? n)%nat && (n <=? 90)%nat).

Definition islower (c : ascii) : bool :=
  let n := nat_of_ascii c in ((97 <=? n)%nat && (n <=? 122)%nat).

Definition isalnum (c : ascii) : bool := isdigit c || isupper c || islower c.

Definition upper_char (c : ascii) : ascii :=
  if islower c then ascii_of_nat (nat_of_ascii c - 32) else c.

(** [s.upper()] *)
Fixpoint upper (s : string) : string :=
  match s with
  | EmptyString => EmptyString
  | String c s' => String (upper_char c) (upper s')
  end.

Fixpoint lstrip (s : string) : string :=
  match s with
  | String c s' => if isspace c then lstrip s' else s
  | EmptyString => EmptyString
  end.

Definition rev_string (s : string) : string :=
  string_of_list_ascii (List.rev (list_ascii_of_string s)).

(** [s.strip()] *)
Definition strip (s : string) : string :=
  rev_string (lstrip (rev_string (lstrip s))).

(** [s.startswith(p)] *)
Definition startswith (s p : string) : bool := String.prefix p s.

(** [str(n)] for a Python int *)
Definition str_int (z : Z) : string :=
  NilZero.string_of_int (Z.to_int z).

(** [str(n)] for a non-negative Python int *)
Definition str_nat (n : nat) : string :=
  NilZero.string_of_uint (Nat.to_uint n).

Definition lower_char (c : ascii) : ascii :=
  if isupper c then ascii_of_nat (nat_of_ascii c + 32) else c.

(** [s.lower()] *)
Fixpoint lower (s : string) : string :=
  match s with
  | EmptyString => EmptyString
  | String c s' => String (lower_char c) (lower s')
  end.

(** [needle in hay] for strings *)
Fixpoint contains (needle hay : string) : bool :=
  String.prefix needle hay ||
  match hay with
  | EmptyString => false
  | String _ hay' => contains needle hay'
  end.

(** [str(x)] for a number held exactly as a rational.  Integral values
    print as Python prints an integral float below 10^16 ([9.0]).  Other
    values, for which Python prints the shortest decimal that rounds to
    the float, are written here as an exact SQL quotient; no statement of
    this development depends on that text. *)
Definition str_q (q : Q) : string :=
  if (Zpos (Qden q) =? 1)%Z then str_int (Qnum q) ++ ".0"
  else "(" ++ str_int (Qnum q) ++ "/" ++ str_int (Zpos (Qden q)) ++ ")".

(** A raised exception, seen through [str(e)]. *)
Record Exc := mkExc { exc_type : string; exc_str : string }.

End Py.

(* ------------------------------------------------------------------ *)
(** ** Python [str] as UTF-8 *)

(** A Python [str] is held as the bytes of its UTF-8 encoding, which is
    also what a [string] literal of this file denotes.  Where the code
    works on the characters of a [str] ([for c in name], [name[0]]), the
    bytes are decoded into code points.  A byte that starts no well-formed
    sequence becomes the lone surrogate U+DC80 .. U+DCFF, as with Python's
    [surrogateescape], and [encode] writes such a surrogate back as that
    byte. *)
Module Utf8.

Local Open Scope Z_scope.

Definition byte (c : ascii) : Z := Z.of_nat (nat_of_ascii c).
Definition chr (z : Z) : ascii := ascii_of_nat (Z.to_nat z).

(** A continuation byte [10xxxxxx]. *)
Definition cont (c : ascii) : bool := (0x80 <=? byte c) && (byte c <? 0xC0).

Definition escape (c : ascii) : Z := 0xDC00 + byte c.

(** [bytes.decode("utf-8", "surrogateescape")]: overlong forms, encoded
    surrogates and values past U+10FFFF are not well formed. *)
Fixpoint decode (s : string) : list Z :=
  match s with
  | EmptyString => []
  | String c1 s1 =>
      let b1 := byte c1 in
      if b1 <? 0x80 then b1 :: decode s1 else
      match s1 with
      | EmptyString => [escape c1]
      | String c2 s2 =>
          if (0xC2 <=? b1) && (b1 <=? 0xDF) && cont c2
          then (b1 - 0xC0) * 64 + (byte c2 - 0x80) :: decode s2 else
          match s2 with
          | EmptyString => escape c1 :: decode s1
          | String c3 s3 =>
              let cp3 := (b1 - 0xE0) * 4096 + (byte c2 - 0x80) * 64 + (byte c3 - 0x80) in
              if (0xE0 <=? b1) && (b1 <=? 0xEF) && cont c2 && cont c3
                 && (0x800 <=? cp3) && negb ((0xD800 <=? cp3) && (cp3 <=? 0xDFFF))
              then cp3 :: decode s3 else
              match s3 with
              | EmptyString => escape c1 :: decode s1
              | String c4 s4 =>
                  let cp4 := (b1 - 0xF0) * 262144 + (byte c2 - 0x80) * 4096
                             + (byte c3 - 0x80) * 64 + (byte c4 - 0x80) in
                  if (0xF0 <=? b1) && (b1 <=? 0xF4) && cont c2 && cont c3 && cont c4
                     && (0x10000 <=? cp4) && (cp4 <=? 0x10FFFF)
                  then cp4 :: decode s4
                  else escape c1 :: decode s1
              end
          end
      end
  end.

(** The UTF-8 bytes of one code point. *)
Definition encode_cp (z : Z) : list ascii :=
  if z <? 0x80 then [chr z]
  else if z <? 0x800 then [chr (0xC0 + z / 64); chr (0x80 + z mod 64)]
  else if (0xDC80 <=? z) && (z <=? 0xDCFF) then [chr (z - 0xDC00)]
  else if z <? 0x10000 then
    [chr (0xE0 + z / 4096); chr (0x80 + (z / 64) mod 64); chr (0x80 + z mod 64)]
  else [chr (0xF0 + z / 262144); chr (0x80 + (z / 4096) mod 64);
        chr (0x80 + (z / 64) mod 64); chr (0x80 + z mod 64)].

Fixpoint prepend (l : list ascii) (s : string) : string :=
  match l with
  | [] => s
  | c :: l' => String c (prepend l' s)
  end.

(** [str.encode("utf-8", "surrogateescape")] *)
Fixpoint encode (cps : list Z) : string :=
  match cps with
  | [] => EmptyString
  | z :: cps' => prepend (encode_cp z) (encode cps')
  end.

(** A Unicode scalar value: a code point that is not a surrogate. *)
Definition scalar (z : Z) : Prop := (0 <= z < 0xD800) \/ (0xE000 <= z < 0x110000).

End Utf8.

(* ------------------------------------------------------------------ *)
(** ** DuckDB connection: values, cursors, and the error/state monad *)

Inductive Value :=
| VInt (z : Z)
| VNum (q : Q)
| VText (s : string)
| VNull.

(** What [conn.execute(sql)] hands back: [result.description] names
    and the rows [result.fetchall()] returns. *)
Record Cursor := mkCursor { description : list string; rows : list (list Value) }.

Section Engine.

(** The state of the DuckDB connection and the [execute] call. *)
Context {DB : Type}.

(** Computations of the engine thread: they read and change the
    connection and may raise. *)
Definition M (A : Type) := DB -> DB * (Py.Exc + A).

Definition ret {A} (a : A) : M A := fun d => (d, inr a).
Definition raise {A} (e : Py.Exc) : M A := fun d => (d, inl e).
Definition bind {A B} (m : M A) (k : A -> M B) : M B :=
  fun d => match m d with
           | (d', inl e) => (d', inl e)
           | (d', inr a) => k a d'
           end.
(** [try: m except Exception as e: h(e)] *)
Definition try_except {A} (m : M A) (h : Py.Exc -> M A) : M A :=
  fun d => match m d with
           | (d', inl e) => h e d'
           | (d', inr a) => (d', inr a)
           end.

End Engine.

Notation "x <- m ;; k" := (bind m (fun x => k))
  (at level 100, m at next level, right associativity).
Notation "m ;;; k" := (bind m (fun _ => k))
  (at level 100, right associativity).

Arguments M : clear implicits.

(* ------------------------------------------------------------------ *)
(** ** Python objects exchanged over the queues *)

(** Payloads and handler results are JSON-like Python objects; DB cells
    appear as [PCell]. *)
Inductive PyVal :=
| PNone
| PBool (b : bool)
| PInt (z : Z)
| PStr (s : string)
| PCell (v : Value)
| PList (l : list PyVal)
| PDict (kv : list (string * PyVal)).

(** A message payload: a Python dict with string keys. *)
Definition Payload := list (string * PyVal).

Fixpoint assoc_get {A} (k : string) (l : list (string * A)) : option A :=
  match l with
  | [] => None
  | (k', v) :: l' => if String.eqb k k' then Some v else assoc_get k l'
  end.

(** [str(x)] for the scalars the handlers format into SQL text; other
    objects are rendered by a placeholder (they only ever lead to an SQL
    text DuckDB rejects). *)
Definition py_str (v : PyVal) : string :=
  match v with
  | PNone => "None"
  | PBool true => "True"
  | PBool false => "False"
  | PInt z => Py.str_int z
  | PStr s => s
  | _ => "<object>"
  end.

(* ------------------------------------------------------------------ *)
(** ** [DataEngine.execute_query] (engine.py, lines 168-237) *)

Record QueryResult := mkQueryResult {
  qr_columns : list string;
  qr_data : list (list Value);
  qr_row_count : Z;
  qr_total_rows : Value;
  qr_error : option string
}.

Section ExecuteQuery.

Context {DB : Type}.
(** [self._conn.execute(sql)] *)
Variable execute : string -> M DB Cursor.

(** [self._conn.execute(sql).fetchone()[0]]: [None[0]] raises a
    TypeError, an empty tuple an IndexError. *)
Definition fetchone0 (c : Cursor) : M DB Value :=
  match rows c with
  | [] => raise (Py.mkExc "TypeError" "'NoneType' object is not subscriptable")
  | [] :: _ => raise (Py.mkExc "IndexError" "tuple index out of range")
  | (v :: _) :: _ => ret v
  end.

Definition count_sql (sql : string) : string :=
  "SELECT COUNT(*) FROM (" ++ sql ++ ") AS _count_query".

(** [f"{sql} LIMIT {limit} OFFSET {offset}"] *)
Definition paginated_sql (sql : string) (limit offset : PyVal) : string :=
  sql ++ " LIMIT " ++ py_str limit ++ " OFFSET " ++ py_str offset.

Definition is_select (sql : string) : bool :=
  Py.startswith (Py.upper (Py.strip sql)) "SELECT".

(** The result of the [except] branch.  [execution_time] is a clock
    reading and is left out of the record. *)
Definition failed_result (e : Py.Exc) : QueryResult :=
  mkQueryResult [] [] 0 (VInt 0) (Some (Py.exc_str e)).

(** The body of the [try] block. *)
Definition execute_query_body (sql : string) (limit offset : PyVal) : M DB QueryResult :=
  if is_select sql then
    c <- execute (count_sql sql) ;;
    total_rows <- fetchone0 c ;;
    result <- execute (paginated_sql sql limit offset) ;;
    let data := rows result in
    ret (mkQueryResult (description result) data (Z.of_nat (length data))
                       total_rows None)
  else
    execute sql ;;;
    ret (mkQueryResult [] [] 0 (VInt 0) None).

Definition execute_query (sql : string) (limit offset : PyVal) : M DB QueryResult :=
  try_except (execute_query_body sql limit offset)
             (fun e => ret (failed_result e)).

End ExecuteQuery.

(* ------------------------------------------------------------------ *)
(** ** Generic state operations of the monad *)

Definition get {S} : M S S := fun st => (st, inr st).
Definition modify {S} (f : S -> S) : M S unit := fun st => (f st, inr tt).
(** A call that reads the world but does not change the state
    ([os.path.getsize], [chardet] on the file). *)
Definition of_sum {S A} (r : Py.Exc + A) : M S A := fun st => (st, r).

(* ------------------------------------------------------------------ *)
(** ** Table names: [os.path.basename], [Path.stem],
       [DataEngine._sanitize_table_name] (engine.py, lines 67-76)

    [basename] and [stem] look for ['/'] and ['.'] in the UTF-8 bytes: an
    ASCII byte never occurs inside the encoding of another character, so
    this splits the [str] where Python splits it. *)

Definition slash : ascii := "/".
Definition dot : ascii := ".".
Definition underscore : ascii := "_".
(** The double quote character, for quoted SQL identifiers. *)
Definition dq : string := String (ascii_of_nat 34) EmptyString.

(** [os.path.basename(p)]: what follows the last slash. *)
Fixpoint basename_from (acc s : string) : string :=
  match s with
  | EmptyString => acc
  | String c s' =>
      if Ascii.eqb c slash then basename_from EmptyString s'
      else basename_from (acc ++ String c EmptyString) s'
  end.
Definition basename (p : string) : string := basename_from EmptyString p.

(** [s.rfind(c)], with [None] for Python's [-1]. *)
Fixpoint rfind_from (c : ascii) (i : nat) (s : string) (best : option nat) : option nat :=
  match s with
  | EmptyString => best
  | String c' s' => rfind_from c (S i) s' (if Ascii.eqb c c' then Some i else best)
  end.
Definition rfind (c : ascii) (s : string) : option nat := rfind_from c 0 s None.

(** [pathlib.PurePath(name).stem] for a name without slashes: the name
    [.] is the empty path; otherwise the last dot splits off a suffix
    unless it is the first or the last character. *)
Definition stem (name : string) : string :=
  if String.eqb name "." then EmptyString else
  match rfind dot name with
  | Some i =>
      if (0 <? i)%nat && (i <? String.length name - 1)%nat
      then String.substring 0 i name else name
  | None => name
  end.

Section Sanitize.

(** [c.isalnum()] and [c.isdigit()] for a one-character [str] [c], given
    by its code point: Python's Unicode database, a parameter of the
    model. *)
Variables ch_isalnum ch_isdigit : Z -> bool.

(** [c if c.isalnum() or c == '_' else '_'] (95 is ['_']). *)
Definition sanitize_char (c : Z) : Z :=
  if ch_isalnum c || (c =? 95)%Z then c else 95%Z.

Definition _sanitize_table_name (name : string) : string :=
  let name := stem name in
  let name := map sanitize_char (Utf8.decode name) in
  let name := match name with
              | c :: _ => if ch_isdigit c then (Utf8.decode "t_" ++ name)%list else name
              | [] => name
              end in
  match name with
  | [] => "table_1"
  | _ => Utf8.encode name
  end.

End Sanitize.

(* ------------------------------------------------------------------ *)
(** ** The engine state and [DataEngine.load_csv] (engine.py, lines 78-156) *)

Record TableInfo := mkTableInfo {
  ti_name : string;
  ti_file_path : string;
  ti_row_count : Value;
  ti_columns : list (string * string);   (** [{"name": col[0], "dtype": col[1]}] *)
  ti_file_size : Z;
  ti_encoding : string
}.

(** [self._conn], [self._tables], [self._views].  The dicts are finite
    maps; their insertion order only shows in [get_tables] and
    [get_views], which no statement here is about. *)
Record Engine {DB : Type} := mkEngine {
  conn : DB;
  tables : gmap string TableInfo;
  views : gmap string string
}.
Arguments Engine : clear implicits.
Arguments mkEngine {DB}.

Definition set_tables {DB} (f : gmap string TableInfo -> gmap string TableInfo)
  (st : Engine DB) : Engine DB :=
  mkEngine (conn st) (f (tables st)) (views st).

(** Run a computation on the connection of the engine. *)
Definition on_conn {DB A} (m : M DB A) : M (Engine DB) A :=
  fun st => let '(d', r) := m (conn st) in (mkEngine d' (tables st) (views st), r).

(** The [while table_name in self._tables] loop.  The fuel is never
    exhausted when it is larger than the number of tables (see
    [dedupe_loop_fresh]): the candidates it tries are pairwise distinct. *)
Fixpoint dedupe_loop (tbls : gmap string TableInfo) (original table_name : string)
  (counter fuel : nat) : string :=
  match fuel with
  | O => table_name
  | S fuel' =>
      match tbls !! table_name with
      | None => table_name
      | Some _ =>
          dedupe_loop tbls original (original ++ "_" ++ Py.str_nat counter)
                      (S counter) fuel'
      end
  end.

(** The names the loop tries, in order: [original], then
    [f"{original}_{counter}"] for counter 1, 2, ... *)
Definition candidate_name (original : string) (k : nat) : string :=
  match k with
  | O => original
  | S _ => original ++ "_" ++ Py.str_nat k
  end.

Definition unique_table_name (tbls : gmap string TableInfo) (original : string) : string :=
  dedupe_loop tbls original original 1 (S (size tbls)).

(** Lines 96-105: [if not table_name: ...] then the uniqueness loop. *)
Definition choose_table_name (ch_isalnum ch_isdigit : Z -> bool)
  (tbls : gmap string TableInfo) (table_name : option string) (file_path : string) : string :=
  let derive := _sanitize_table_name ch_isalnum ch_isdigit (basename file_path) in
  let tn := match table_name with
            | Some s => if String.eqb s "" then derive else s
            | None => derive
            end in
  unique_table_name tbls tn.

(** The SQL texts of [load_csv]; the line breaks and indentation of the
    triple-quoted f-strings are written as single spaces. *)
Definition create_sql (table_name file_path : string) : string :=
  "CREATE TABLE " ++ dq ++ table_name ++ dq ++ " AS SELECT * FROM read_csv_auto('"
  ++ file_path ++ "', header=true, ignore_errors=true, sample_size=10000)".

Definition create_sql_encoding (table_name file_path encoding : string) : string :=
  "CREATE TABLE " ++ dq ++ table_name ++ dq ++ " AS SELECT * FROM read_csv_auto('"
  ++ file_path ++ "', header=true, ignore_errors=true, encoding='" ++ encoding ++ "')".

Definition count_table_sql (table_name : string) : string :=
  "SELECT COUNT(*) FROM " ++ dq ++ table_name ++ dq.

Definition describe_sql (table_name : string) : string :=
  "DESCRIBE " ++ dq ++ table_name ++ dq.

Definition drop_table_sql (table_name : string) : string :=
  "DROP TABLE IF EXISTS " ++ dq ++ table_name ++ dq.

(** [[{"name": col[0], "dtype": col[1]} for col in columns_info]].
    DuckDB's [DESCRIBE] returns text in its first two columns; the
    analyzer uses them as [str], so the model keeps the strings (the
    last branch is never taken on a [DESCRIBE] result). *)
Fixpoint describe_columns (rs : list (list Value)) : Py.Exc + list (string * string) :=
  match rs with
  | [] => inr []
  | (n :: t :: _) :: rs' =>
      match n, t with
      | VText n, VText t =>
          match describe_columns rs' with
          | inl e => inl e
          | inr cs => inr ((n, t) :: cs)
          end
      | _, _ => inl (Py.mkExc "TypeError" "DESCRIBE returned a non-text cell")
      end
  | _ :: _ => inl (Py.mkExc "IndexError" "tuple index out of range")
  end.

Section LoadCsv.

Context {DB : Type}.
Variable execute : string -> M DB Cursor.
(** The file system, read but never written by [load_csv]. *)
Variable path_exists : string -> bool.
Variable detect_encoding : string -> Py.Exc + string.
Variable getsize : string -> Py.Exc + Z.
(** [str.isalnum] and [str.isdigit] on one character. *)
Variables ch_isalnum ch_isdigit : Z -> bool.

Definition file_not_found (file_path : string) : Py.Exc :=
  Py.mkExc "FileNotFoundError" ("文件不存在: " ++ file_path).

Definition load_csv (file_path : string) (table_name : option string)
  : M (Engine DB) TableInfo :=
  if negb (path_exists file_path) then raise (file_not_found file_path) else
  encoding <- of_sum (detect_encoding file_path) ;;
  st <- get ;;
  let table_name := choose_table_name ch_isalnum ch_isdigit (tables st) table_name file_path in
  on_conn (try_except (execute (create_sql table_name file_path))
                      (fun _ => execute (create_sql_encoding table_name file_path encoding))) ;;;
  c <- on_conn (execute (count_table_sql table_name)) ;;
  row_count <- on_conn (fetchone0 c) ;;
  columns_info <- on_conn (execute (describe_sql table_name)) ;;
  columns <- of_sum (describe_columns (rows columns_info)) ;;
  file_size <- of_sum (getsize file_path) ;;
  let table_info := mkTableInfo table_name file_path row_count columns file_size encoding in
  modify (set_tables (fun t => <[table_name := table_info]> t)) ;;;
  ret table_info.

(** [DataEngine.drop_table] (engine.py, lines 287-297) *)
Definition drop_table (table_name : string) : M (Engine DB) bool :=
  try_except
    (on_conn (execute (drop_table_sql table_name)) ;;;
     modify (set_tables (fun t => delete table_name t)) ;;;
     ret true)
    (fun _ => ret false).

(** [DataEngine.get_table_info] *)
Definition get_table_info (table_name : string) : M (Engine DB) (option TableInfo) :=
  fun st => (st, inr (tables st !! table_name)).

End LoadCsv.

(* ------------------------------------------------------------------ *)
(** ** The analyzer: [TableStats], the cache and [analyze_table]
       (analyzer.py, lines 12-125, 127-147, 261-268, 603-610) *)

(** [ColumnStats]: the counts of the base query; the numeric, string and
    top-value fields are kept as the dict [asdict] would show them. *)
Record ColumnStats := mkColumnStats {
  cs_name : string;
  cs_dtype : string;
  cs_total_count : Value;
  cs_null_count : Value;
  cs_unique_count : Value;
  cs_details : list (string * PyVal)
}.

Record TableStats := mkTableStats {
  ts_table_name : string;
  ts_row_count : Value;
  ts_column_count : Z;
  ts_memory_usage : Value;
  ts_columns : list ColumnStats;
  ts_null_summary : list (string * Value);   (** column -> null count *)
  ts_dtype_summary : list (string * Z)        (** dtype category -> count *)
}.

(** [d[k] = v] on a dict kept in insertion order. *)
Fixpoint assoc_set {A} (k : string) (v : A) (l : list (string * A)) : list (string * A) :=
  match l with
  | [] => [(k, v)]
  | (k', v') :: l' => if String.eqb k k' then (k, v) :: l' else (k', v') :: assoc_set k v l'
  end.

Definition any_in (ts : list string) (s : string) : bool :=
  existsb (fun t => Py.contains t s) ts.

Definition _categorize_dtype (dtype : string) : string :=
  let dtype_lower := Py.lower dtype in
  if any_in ["int"; "bigint"; "smallint"; "tinyint"] dtype_lower then "integer"
  else if any_in ["float"; "double"; "decimal"; "numeric"; "real"] dtype_lower then "float"
  else if any_in ["varchar"; "char"; "text"; "string"] dtype_lower then "string"
  else if any_in ["date"; "time"; "timestamp"] dtype_lower then "datetime"
  else if Py.contains "bool" dtype_lower then "boolean"
  else "other".

Definition _is_numeric_dtype (dtype : string) : bool :=
  let c := _categorize_dtype dtype in String.eqb c "integer" || String.eqb c "float".

(** The state of [BackendWorker]: its engine, the cache of its
    analyzer ([self.analyzer._cache]) and its [running] flag. *)
Record Backend {DB : Type} := mkBackend {
  engine : Engine DB;
  cache : gmap string TableStats;
  running : bool
}.
Arguments Backend : clear implicits.
Arguments mkBackend {DB}.

Definition on_engine {DB A} (m : M (Engine DB) A) : M (Backend DB) A :=
  fun b => let '(e', r) := m (engine b) in (mkBackend e' (cache b) (running b), r).

Definition set_cache {DB} (f : gmap string TableStats -> gmap string TableStats)
  (b : Backend DB) : Backend DB :=
  mkBackend (engine b) (f (cache b)) (running b).

(** [table_info.row_count * 100]: [None * 100] raises. *)
Definition times_100 (v : Value) : Py.Exc + Value :=
  match v with
  | VInt z => inr (VInt (z * 100))
  | VNum q => inr (VNum (q * 100))
  | _ => inl (Py.mkExc "TypeError" "unsupported operand type(s) for *")
  end.

Section Analyzer.

Context {DB : Type}.
(** [DataAnalyzer._analyze_column]: SQL queries on the connection. *)
Variable _analyze_column : string -> string -> string -> M (Engine DB) ColumnStats.

Definition _estimate_memory_usage (table_name : string) : M (Engine DB) Value :=
  ti <- get_table_info table_name ;;
  match ti with
  | None => ret (VInt 0)
  | Some info => of_sum (times_100 (ti_row_count info))
  end.

(** The [for col_info in table_info.columns] loop, with the three
    accumulators [columns_stats], [null_summary], [dtype_summary]. *)
Fixpoint analyze_columns (table_name : string) (cols : list (string * string))
  (acc : list ColumnStats * list (string * Value) * list (string * Z))
  : M (Engine DB) (list ColumnStats * list (string * Value) * list (string * Z)) :=
  match cols with
  | [] => ret acc
  | (col_name, col_dtype) :: cols' =>
      let '(columns_stats, null_summary, dtype_summary) := acc in
      let dtype_category := _categorize_dtype col_dtype in
      let dtype_summary :=
        assoc_set dtype_category
          (default 0%Z (assoc_get dtype_category dtype_summary) + 1)%Z dtype_summary in
      col_stats <- _analyze_column table_name col_name col_dtype ;;
      analyze_columns table_name cols'
        ((columns_stats ++ [col_stats])%list,
         assoc_set col_name (cs_null_count col_stats) null_summary,
         dtype_summary)
  end.

Definition analyze_table (table_name : string) (force_refresh : bool)
  : M (Backend DB) TableStats :=
  b <- get ;;
  match (if force_refresh then None else cache b !! table_name) with
  | Some cached => ret cached
  | None =>
      table_info <- on_engine (get_table_info table_name) ;;
      match table_info with
      | None => raise (Py.mkExc "ValueError" ("表不存在: " ++ table_name))
      | Some info =>
          acc <- on_engine (analyze_columns table_name (ti_columns info) ([], [], [])) ;;
          let '(columns_stats, null_summary, dtype_summary) := acc in
          memory_usage <- on_engine (_estimate_memory_usage table_name) ;;
          let table_stats :=
            mkTableStats table_name (ti_row_count info)
              (Z.of_nat (length (ti_columns info))) memory_usage
              columns_stats null_summary dtype_summary in
          modify (set_cache (fun c => <[table_name := table_stats]> c)) ;;;
          ret table_stats
      end
  end.

End Analyzer.

(** [DataAnalyzer.clear_cache]: [if table_name:] is false for [None]
    and for the empty string, which both clear everything. *)
Definition clear_cache {DB} (table_name : option string) : M (Backend DB) unit :=
  match table_name with
  | Some t =>
      if String.eqb t "" then modify (set_cache (fun _ => ∅))
      else modify (set_cache (fun c => delete t c))
  | None => modify (set_cache (fun _ => ∅))
  end.

(* ------------------------------------------------------------------ *)
(** ** [DataAnalyzer.get_column_distribution] (analyzer.py, lines 513-601)

    Numbers are held exactly: a DB number is [VInt] (a Python [int]) or
    [VNum] (a rational standing for a DOUBLE, a Python [float]), and
    Python's [/] on them is the exact quotient, which is what the float
    division returns whenever that quotient is a float itself (see the
    hypotheses of [histogram_max_value_bucket]).  DECIMAL columns, which
    DuckDB hands to Python as [decimal.Decimal], are not modelled. *)

Definition num_of_value (v : Value) : option Q :=
  match v with
  | VInt z => Some (inject_Z z)
  | VNum q => Some q
  | _ => None
  end.

(** [str(v)] of a DB cell, as formatted into the SQL text. *)
Definition value_str (v : Value) : string :=
  match v with
  | VInt z => Py.str_int z
  | VNum q => Py.str_q q
  | VText s => s
  | VNull => "None"
  end.

(** Python truthiness of a DB cell ([if row[0]]). *)
Definition value_truthy (v : Value) : bool :=
  match v with
  | VInt z => negb (z =? 0)%Z
  | VNum q => negb (Qeq_bool q 0)
  | VText s => negb (String.eqb s "")
  | VNull => false
  end.

(** [int(v)] truncates toward zero. *)
Definition value_int (v : Value) : Py.Exc + Z :=
  match v with
  | VInt z => inr z
  | VNum q => inr (Z.quot (Qnum q) (Zpos (Qden q)))
  | _ => inl (Py.mkExc "ValueError" "invalid literal for int()")
  end.

Definition minmax_sql (table_name column_name : string) : string :=
  "SELECT MIN(" ++ dq ++ column_name ++ dq ++ "), MAX(" ++ dq ++ column_name ++ dq
  ++ ") FROM " ++ dq ++ table_name ++ dq ++ " WHERE " ++ dq ++ column_name ++ dq
  ++ " IS NOT NULL".

Definition histogram_sql (table_name column_name : string) (min_val bin_width : Value) : string :=
  "SELECT FLOOR((" ++ dq ++ column_name ++ dq ++ " - " ++ value_str min_val ++ ") / "
  ++ value_str bin_width ++ ") as bin, COUNT(*) as count FROM " ++ dq ++ table_name ++ dq
  ++ " WHERE " ++ dq ++ column_name ++ dq ++ " IS NOT NULL GROUP BY bin ORDER BY bin".

Definition frequency_sql (table_name column_name : string) : string :=
  "SELECT " ++ dq ++ column_name ++ dq ++ " as value, COUNT(*) as count FROM "
  ++ dq ++ table_name ++ dq ++ " GROUP BY " ++ dq ++ column_name ++ dq
  ++ " ORDER BY count DESC LIMIT 50".

(** [str(e)] of the ZeroDivisionError of [(max_val - min_val) / bins]
    with [bins = 0]: [int / int] and [float / int] word it differently
    (CPython up to 3.13). *)
Definition zero_division_text (min_val max_val : Value) : string :=
  match min_val, max_val with
  | VInt _, VInt _ => "division by zero"
  | _, _ => "float division by zero"
  end.

(** [bin_width = (max_val - min_val) / bins if max_val != min_val else 1] *)
Definition bin_width_of (min_val max_val : Value) (bins : Z) : Py.Exc + Value :=
  match num_of_value min_val, num_of_value max_val with
  | Some mn, Some mx =>
      if Qeq_bool mx mn then inr (VInt 1)
      else if (bins =? 0)%Z
      then inl (Py.mkExc "ZeroDivisionError" (zero_division_text min_val max_val))
      else inr (VNum (Qred ((mx - mn) / inject_Z bins)))
  | _, _ => inl (Py.mkExc "TypeError" "unsupported operand type(s) for -")
  end.

(** [{"bin": int(row[0]) if row[0] else 0, "count": row[1]}] *)
Definition histogram_entry (row : list Value) : Py.Exc + PyVal :=
  match row with
  | b :: cnt :: _ =>
      if value_truthy b then
        match value_int b with
        | inl e => inl e
        | inr z => inr (PDict [("bin", PInt z); ("count", PCell cnt)])
        end
      else inr (PDict [("bin", PInt 0); ("count", PCell cnt)])
  | _ => inl (Py.mkExc "IndexError" "tuple index out of range")
  end.

Fixpoint map_exc {A B} (f : A -> Py.Exc + B) (l : list A) : Py.Exc + list B :=
  match l with
  | [] => inr []
  | x :: l' =>
      match f x with
      | inl e => inl e
      | inr y => match map_exc f l' with inl e => inl e | inr ys => inr (y :: ys) end
      end
  end.

Definition frequency_entry (row : list Value) : Py.Exc + PyVal :=
  match row with
  | v :: cnt :: _ =>
      inr (PDict [("value", PStr (match v with VNull => "NULL" | _ => value_str v end));
                  ("count", PCell cnt)])
  | _ => inl (Py.mkExc "IndexError" "tuple index out of range")
  end.

Fixpoint find_column (column_name : string) (cols : list (string * string))
  : option (string * string) :=
  match cols with
  | [] => None
  | (n, t) :: cols' => if String.eqb n column_name then Some (n, t) else find_column column_name cols'
  end.

Section Distribution.

Context {DB : Type}.
Variable execute : string -> M DB Cursor.

(** [min_val, max_val = conn.execute(...).fetchone()] *)
Definition fetch_pair (c : Cursor) : M DB (Value * Value) :=
  match rows c with
  | [] => raise (Py.mkExc "TypeError" "cannot unpack non-iterable NoneType object")
  | [a; b] :: _ => ret (a, b)
  | _ :: _ => raise (Py.mkExc "ValueError" "wrong number of values to unpack")
  end.

Definition numeric_distribution (table_name column_name : string) (bins : Z)
  (result : list (string * PyVal)) : M DB (list (string * PyVal)) :=
  try_except
    (min_max <- execute (minmax_sql table_name column_name) ;;
     mm <- fetch_pair min_max ;;
     let '(min_val, max_val) := mm in
     match min_val, max_val with
     | VNull, _ | _, VNull => ret result
     | _, _ =>
         bin_width <- of_sum (bin_width_of min_val max_val bins) ;;
         histogram_data <- execute (histogram_sql table_name column_name min_val bin_width) ;;
         data <- of_sum (map_exc histogram_entry (rows histogram_data)) ;;
         let fl v := PCell (VNum (default 0%Q (num_of_value v))) in
         ret (assoc_set "histogram"
                (PDict [("bins", PInt bins); ("min", fl min_val); ("max", fl max_val);
                        ("bin_width", fl bin_width); ("data", PList data)]) result)
     end)
    (fun e => ret (assoc_set "error" (PStr (Py.exc_str e)) result)).

Definition categorical_distribution (table_name column_name : string)
  (result : list (string * PyVal)) : M DB (list (string * PyVal)) :=
  try_except
    (freq_data <- execute (frequency_sql table_name column_name) ;;
     freq <- of_sum (map_exc frequency_entry (rows freq_data)) ;;
     ret (assoc_set "frequency" (PList freq) result))
    (fun e => ret (assoc_set "error" (PStr (Py.exc_str e)) result)).

Definition get_column_distribution (table_name column_name : string) (bins : Z)
  : M (Engine DB) PyVal :=
  table_info <- get_table_info table_name ;;
  let col_info := match table_info with
                  | Some info => find_column column_name (ti_columns info)
                  | None => None
                  end in
  match col_info with
  | None => ret (PDict [("error", PStr ("列不存在: " ++ column_name))])
  | Some (_, dtype) =>
      let result := [("table_name", PStr table_name); ("column_name", PStr column_name);
                     ("dtype", PStr dtype)] in
      r <- on_conn (if _is_numeric_dtype dtype
                    then numeric_distribution table_name column_name bins result
                    else categorical_distribution table_name column_name result) ;;
      ret (PDict r)
  end.

End Distribution.

(* ------------------------------------------------------------------ *)
(** ** Views and export (engine.py, lines 249-297, 299-329) *)

Section Views.

Context {DB : Type}.
Variable execute : string -> M DB Cursor.

Definition save_view (view_name sql : string) : M (Engine DB) bool :=
  try_except
    (on_conn (execute ("CREATE OR REPLACE VIEW " ++ dq ++ view_name ++ dq ++ " AS " ++ sql)) ;;;
     modify (fun st => mkEngine (conn st) (tables st) (<[view_name := sql]> (views st))) ;;;
     ret true)
    (fun _ => ret false).

Definition delete_view (view_name : string) : M (Engine DB) bool :=
  try_except
    (on_conn (execute ("DROP VIEW IF EXISTS " ++ dq ++ view_name ++ dq)) ;;;
     modify (fun st => mkEngine (conn st) (tables st) (delete view_name (views st))) ;;;
     ret true)
    (fun _ => ret false).

Definition export_to_csv (sql_or_table output_path : string) (is_sql : bool)
  : M (Engine DB) bool :=
  try_except
    (let query := if is_sql then sql_or_table
                  else "SELECT * FROM " ++ dq ++ sql_or_table ++ dq in
     on_conn (execute ("COPY (" ++ query ++ ") TO '" ++ output_path
                       ++ "' (HEADER, DELIMITER ',')")) ;;;
     ret true)
    (fun _ => ret false).

End Views.

(* ------------------------------------------------------------------ *)
(** ** Messages and responses (ipc.py, lines 16-87) *)

Inductive MessageType :=
| LOAD_CSV | DROP_TABLE | GET_TABLES | GET_TABLE_INFO
| EXECUTE_QUERY | GET_TABLE_DATA
| SAVE_VIEW | GET_VIEWS | DELETE_VIEW
| ANALYZE_TABLE | ANALYZE_COLUMN | GET_MISSING_REPORT | GET_NUMERIC_SUMMARY
| GET_COLUMN_DISTRIBUTION
| EXPORT_CSV
| SHUTDOWN | RESPONSE | ERROR.

Definition all_message_types : list MessageType :=
  [LOAD_CSV; DROP_TABLE; GET_TABLES; GET_TABLE_INFO; EXECUTE_QUERY; GET_TABLE_DATA;
   SAVE_VIEW; GET_VIEWS; DELETE_VIEW; ANALYZE_TABLE; ANALYZE_COLUMN; GET_MISSING_REPORT;
   GET_NUMERIC_SUMMARY; GET_COLUMN_DISTRIBUTION; EXPORT_CSV; SHUTDOWN; RESPONSE; ERROR].

Definition value (t : MessageType) : string :=
  match t with
  | LOAD_CSV => "load_csv" | DROP_TABLE => "drop_table" | GET_TABLES => "get_tables"
  | GET_TABLE_INFO => "get_table_info" | EXECUTE_QUERY => "execute_query"
  | GET_TABLE_DATA => "get_table_data" | SAVE_VIEW => "save_view"
  | GET_VIEWS => "get_views" | DELETE_VIEW => "delete_view"
  | ANALYZE_TABLE => "analyze_table" | ANALYZE_COLUMN => "analyze_column"
  | GET_MISSING_REPORT => "get_missing_report"
  | GET_NUMERIC_SUMMARY => "get_numeric_summary"
  | GET_COLUMN_DISTRIBUTION => "get_column_distribution"
  | EXPORT_CSV => "export_csv" | SHUTDOWN => "shutdown"
  | RESPONSE => "response" | ERROR => "error"
  end.

(** [MessageType(v)]: the member with that value, or a ValueError. *)
Definition message_type_of (v : string) : Py.Exc + MessageType :=
  match List.find (fun t => String.eqb (value t) v) all_message_types with
  | Some t => inr t
  | None => inl (Py.mkExc "ValueError" ("'" ++ v ++ "' is not a valid MessageType"))
  end.

Record Message := mkMessage { id : string; type : MessageType; payload : Payload }.

(** [Message.to_dict()]: the dict the client puts on the request queue. *)
Record MessageDict := mkMessageDict { d_id : string; d_type : string; d_payload : Payload }.

Definition to_dict (m : Message) : MessageDict := mkMessageDict (id m) (value (type m)) (payload m).

Definition from_dict (d : MessageDict) : Py.Exc + Message :=
  match message_type_of (d_type d) with
  | inl e => inl e
  | inr t => inr (mkMessage (d_id d) t (d_payload d))
  end.

Record Response := mkResponse {
  request_id : string;
  success : bool;
  data : PyVal;
  error : option string
}.

(* ------------------------------------------------------------------ *)
(** ** Payload access and result dicts *)

(** [payload[k]] *)
Definition item {S} (p : Payload) (k : string) : M S PyVal :=
  match assoc_get k p with
  | Some v => ret v
  | None => raise (Py.mkExc "KeyError" ("'" ++ k ++ "'"))
  end.

(** [payload.get(k, d)] *)
Definition get_or {S} (p : Payload) (k : string) (d : PyVal) : M S PyVal :=
  ret (default d (assoc_get k p)).

(** The client always sends [str] for names, paths and SQL; another
    object fails in the engine's string operations. *)
Definition as_str {S} (v : PyVal) : M S string :=
  match v with
  | PStr s => ret s
  | _ => raise (Py.mkExc "TypeError" "expected str")
  end.

Definition as_int {S} (v : PyVal) : M S Z :=
  match v with
  | PInt z => ret z
  | _ => raise (Py.mkExc "TypeError" "expected int")
  end.

Definition truthy (v : PyVal) : bool :=
  match v with
  | PNone => false
  | PBool b => b
  | PInt z => negb (z =? 0)%Z
  | PStr s => negb (String.eqb s "")
  | PCell c => value_truthy c
  | PList l => negb (Nat.eqb (length l) 0)
  | PDict kv => negb (Nat.eqb (length kv) 0)
  end.

(** [payload.get("table_name")] as [load_csv] reads it: a falsy value
    ([None], [""], [0], [False], ...) makes [if not table_name] derive the
    name from the file.  A truthy value that is not a [str] is taken
    through its [str()]. *)
Definition table_name_arg (v : PyVal) : option string :=
  if truthy v then
    match v with
    | PStr s => Some s
    | v => Some (py_str v)
    end
  else None.

Definition info_dict (t : TableInfo) : PyVal :=
  PDict [("name", PStr (ti_name t)); ("file_path", PStr (ti_file_path t));
         ("row_count", PCell (ti_row_count t));
         ("columns", PList (map (fun '(n, d) => PDict [("name", PStr n); ("dtype", PStr d)])
                                (ti_columns t)));
         ("file_size", PInt (ti_file_size t)); ("encoding", PStr (ti_encoding t))].

Definition query_dict (r : QueryResult) : PyVal :=
  PDict [("columns", PList (map PStr (qr_columns r)));
         ("data", PList (map (fun row => PList (map PCell row)) (qr_data r)));
         ("row_count", PInt (qr_row_count r)); ("total_rows", PCell (qr_total_rows r));
         ("error", match qr_error r with Some s => PStr s | None => PNone end)].

(* ------------------------------------------------------------------ *)
(** ** [BackendWorker]: handlers, [_handle_message] and the main loop
       (ipc.py, lines 89-301) *)

(** What the worker runs on: the DuckDB connection, the file system as
    [load_csv] reads it, Python's Unicode character classes, and the parts of the analyzer no statement here
    is about ([_analyze_column]'s SQL statistics, [analyze_column], and
    the pure report builders over a [TableStats]). *)
Record Env (DB : Type) := mkEnv {
  env_execute : string -> M DB Cursor;
  env_path_exists : string -> bool;
  env_detect_encoding : string -> Py.Exc + string;
  env_getsize : string -> Py.Exc + Z;
  env_isalnum : Z -> bool;
  env_isdigit : Z -> bool;
  env_analyze_column_stats : string -> string -> string -> M (Engine DB) ColumnStats;
  env_analyze_column : string -> string -> M (Engine DB) PyVal;
  env_missing_report : string -> TableStats -> PyVal;
  env_numeric_summary : string -> TableStats -> PyVal;
  env_stats_dict : TableStats -> PyVal
}.
Arguments mkEnv {DB}.
Arguments env_execute {DB}.
Arguments env_path_exists {DB}.
Arguments env_detect_encoding {DB}.
Arguments env_getsize {DB}.
Arguments env_isalnum {DB}.
Arguments env_isdigit {DB}.
Arguments env_analyze_column_stats {DB}.
Arguments env_analyze_column {DB}.
Arguments env_missing_report {DB}.
Arguments env_numeric_summary {DB}.
Arguments env_stats_dict {DB}.

Section Worker.

Context {DB : Type} (env : Env DB).

Abbreviation exec := (env_execute env).
Abbreviation BM := (M (Backend DB)).

Definition _handle_load_csv (p : Payload) : BM PyVal :=
  file_path <- (v <- item p "file_path" ;; as_str v) ;;
  table_name <- get_or p "table_name" PNone ;;
  table_info <- on_engine (load_csv exec (env_path_exists env) (env_detect_encoding env)
                             (env_getsize env) (env_isalnum env) (env_isdigit env)
                             file_path (table_name_arg table_name)) ;;
  ret (info_dict table_info).

Definition _handle_drop_table (p : Payload) : BM PyVal :=
  t <- (v <- item p "table_name" ;; as_str v) ;;
  b <- on_engine (drop_table exec t) ;;
  ret (PBool b).

Definition _handle_get_tables (p : Payload) : BM PyVal :=
  b <- get ;;
  ret (PList (map (fun kv => info_dict (snd kv)) (map_to_list (tables (engine b))))).

Definition _handle_get_table_info (p : Payload) : BM PyVal :=
  t <- (v <- item p "table_name" ;; as_str v) ;;
  ti <- on_engine (get_table_info t) ;;
  ret (match ti with Some info => info_dict info | None => PNone end).

Definition _handle_execute_query (p : Payload) : BM PyVal :=
  sql <- (v <- item p "sql" ;; as_str v) ;;
  limit <- get_or p "limit" (PInt 1000) ;;
  offset <- get_or p "offset" (PInt 0) ;;
  r <- on_engine (on_conn (execute_query exec sql limit offset)) ;;
  ret (query_dict r).

(** [DataEngine.get_table_data] *)
Definition _handle_get_table_data (p : Payload) : BM PyVal :=
  t <- (v <- item p "table_name" ;; as_str v) ;;
  limit <- get_or p "limit" (PInt 1000) ;;
  offset <- get_or p "offset" (PInt 0) ;;
  r <- on_engine (on_conn (execute_query exec ("SELECT * FROM " ++ dq ++ t ++ dq) limit offset)) ;;
  ret (query_dict r).

Definition _handle_save_view (p : Payload) : BM PyVal :=
  view_name <- (v <- item p "view_name" ;; as_str v) ;;
  sql <- (v <- item p "sql" ;; as_str v) ;;
  b <- on_engine (save_view exec view_name sql) ;;
  ret (PBool b).

Definition _handle_get_views (p : Payload) : BM PyVal :=
  b <- get ;;
  ret (PDict (map (fun kv => (fst kv, PStr (snd kv))) (map_to_list (views (engine b))))).

Definition _handle_delete_view (p : Payload) : BM PyVal :=
  view_name <- (v <- item p "view_name" ;; as_str v) ;;
  b <- on_engine (delete_view exec view_name) ;;
  ret (PBool b).

Definition _handle_analyze_table (p : Payload) : BM PyVal :=
  t <- (v <- item p "table_name" ;; as_str v) ;;
  force_refresh <- get_or p "force_refresh" (PBool false) ;;
  stats <- analyze_table (env_analyze_column_stats env) t (truthy force_refresh) ;;
  ret (env_stats_dict env stats).

Definition _handle_analyze_column (p : Payload) : BM PyVal :=
  t <- (v <- item p "table_name" ;; as_str v) ;;
  c <- (v <- item p "column_name" ;; as_str v) ;;
  on_engine (env_analyze_column env t c).

(** [get_missing_value_report] and [get_numeric_summary] start with
    [self.analyze_table(table_name)], i.e. [force_refresh=False]. *)
Definition _handle_get_missing_report (p : Payload) : BM PyVal :=
  t <- (v <- item p "table_name" ;; as_str v) ;;
  stats <- analyze_table (env_analyze_column_stats env) t false ;;
  ret (env_missing_report env t stats).

Definition _handle_get_numeric_summary (p : Payload) : BM PyVal :=
  t <- (v <- item p "table_name" ;; as_str v) ;;
  stats <- analyze_table (env_analyze_column_stats env) t false ;;
  ret (env_numeric_summary env t stats).

Definition _handle_get_column_distribution (p : Payload) : BM PyVal :=
  t <- (v <- item p "table_name" ;; as_str v) ;;
  c <- (v <- item p "column_name" ;; as_str v) ;;
  bins <- (v <- get_or p "bins" (PInt 20) ;; as_int v) ;;
  on_engine (get_column_distribution exec t c bins).

Definition _handle_export_csv (p : Payload) : BM PyVal :=
  sql_or_table <- (v <- item p "sql_or_table" ;; as_str v) ;;
  output_path <- (v <- item p "output_path" ;; as_str v) ;;
  is_sql <- get_or p "is_sql" (PBool false) ;;
  b <- on_engine (export_to_csv exec sql_or_table output_path (truthy is_sql)) ;;
  ret (PBool b).

Definition _handle_shutdown (p : Payload) : BM PyVal :=
  modify (fun b => mkBackend (engine b) (cache b) false) ;;;
  ret (PBool true).

(** [getattr(self, f"_handle_{message.type.value}", None)]: the worker
    defines a handler for every kind except [response] and [error]. *)
Definition handler (t : MessageType) : option (Payload -> BM PyVal) :=
  match t with
  | LOAD_CSV => Some _handle_load_csv
  | DROP_TABLE => Some _handle_drop_table
  | GET_TABLES => Some _handle_get_tables
  | GET_TABLE_INFO => Some _handle_get_table_info
  | EXECUTE_QUERY => Some _handle_execute_query
  | GET_TABLE_DATA => Some _handle_get_table_data
  | SAVE_VIEW => Some _handle_save_view
  | GET_VIEWS => Some _handle_get_views
  | DELETE_VIEW => Some _handle_delete_view
  | ANALYZE_TABLE => Some _handle_analyze_table
  | ANALYZE_COLUMN => Some _handle_analyze_column
  | GET_MISSING_REPORT => Some _handle_get_missing_report
  | GET_NUMERIC_SUMMARY => Some _handle_get_numeric_summary
  | GET_COLUMN_DISTRIBUTION => Some _handle_get_column_distribution
  | EXPORT_CSV => Some _handle_export_csv
  | SHUTDOWN => Some _handle_shutdown
  | RESPONSE | ERROR => None
  end.

Definition _handle_message (message : Message) : BM Response :=
  try_except
    (match handler (type message) with
     | Some h =>
         result <- h (payload message) ;;
         ret (mkResponse (id message) true result None)
     | None =>
         ret (mkResponse (id message) false PNone
                (Some ("Unknown message type: " ++ value (type message))))
     end)
    (fun e => ret (mkResponse (id message) false PNone (Some (Py.exc_str e)))).

(** One turn of [while self.running:] that received [message_dict]:
    decode, handle, put the response on [response_queue].  A decoding
    error is printed by the outer [except] and the loop goes on. *)
Definition worker_iteration (message_dict : MessageDict)
  (w : Backend DB * list Response) : Backend DB * list Response :=
  let '(b, outq) := w in
  match from_dict message_dict with
  | inl _ => (b, outq)
  | inr message =>
      match _handle_message message b with
      | (b', inr response) => (b', (outq ++ [response])%list)
      | (b', inl _) => (b', outq)
      end
  end.

(** The loop over the messages read from [request_queue]; it stops
    taking messages once [running] is false. *)
Fixpoint worker_run (inq : list MessageDict) (w : Backend DB * list Response)
  : Backend DB * list Response :=
  match inq with
  | [] => w
  | m :: inq' => if running (fst w) then worker_run inq' (worker_iteration m w) else w
  end.

End Worker.

(* ------------------------------------------------------------------ *)
(** ** [IPCClient] bookkeeping and [send_message] (ipc.py, lines 304-448)

    [_pending_requests] maps a request id to its [threading.Event],
    represented by whether it is set; [_responses] holds the responses
    the listener thread stored.  Every access is under [self._lock], so
    the listener's work is a sequence of atomic deliveries; the ones that
    fall between the steps of [send_message] are its parameters. *)

Record Client := mkClient {
  request_id_counter : nat;
  pending_requests : gmap string bool;
  responses : gmap string Response;
  request_queue : list MessageDict
}.

(** One iteration of [_listen_responses] that received a response. *)
Definition deliver (c : Client) (r : Response) : Client :=
  let rid := request_id r in
  let resps := <[rid := r]> (responses c) in
  let pend := match pending_requests c !! rid with
              | Some _ => <[rid := true]> (pending_requests c)
              | None => pending_requests c
              end in
  mkClient (request_id_counter c) pend resps (request_queue c).

Definition deliver_all (c : Client) (rs : list Response) : Client := fold_left deliver rs c.

Definition _generate_request_id (c : Client) : Client * string :=
  let n := S (request_id_counter c) in
  (mkClient n (pending_requests c) (responses c) (request_queue c), "req_" ++ Py.str_nat n).

Definition timeout_response (request_id : string) : Response :=
  mkResponse request_id false PNone (Some "Request timeout").

(** The block after [# 超时] (timeout): drop the own registration and
    any stray stored response. *)
Definition timeout_cleanup (request_id : string) (c : Client) : Client :=
  mkClient (request_id_counter c) (delete request_id (pending_requests c))
           (delete request_id (responses c)) (request_queue c).

(** [send_message(msg_type, payload, timeout)].  [during_wait] are the
    responses the listener stores while [event.wait] blocks, [after_wait]
    those it stores after the wait returned and before this thread takes
    the lock again.  [event.wait(timeout)] returns whether the event was
    set.  The [del self._pending_requests[request_id]] of the signalled
    branch always finds the entry: only this call removes it. *)
Definition send_message (msg_type : MessageType) (p : Payload)
  (during_wait after_wait : list Response) (c : Client) : Client * Response :=
  let '(c, request_id) := _generate_request_id c in
  let message := mkMessage request_id msg_type p in
  let c := mkClient (request_id_counter c) (<[request_id := false]> (pending_requests c))
                    (responses c) (request_queue c) in
  let c := mkClient (request_id_counter c) (pending_requests c) (responses c)
                    ((request_queue c ++ [to_dict message])%list) in
  let c := deliver_all c during_wait in
  let signalled := match pending_requests c !! request_id with
                   | Some true => true
                   | _ => false
                   end in
  let c := deliver_all c after_wait in
  if signalled then
    let response := responses c !! request_id in
    let c := mkClient (request_id_counter c) (delete request_id (pending_requests c))
                      (delete request_id (responses c)) (request_queue c) in
    match response with
    | Some r => (c, r)
    | None => (timeout_cleanup request_id c, timeout_response request_id)
    end
  else (timeout_cleanup request_id c, timeout_response request_id).

(* ------------------------------------------------------------------ *)
(** ** Concrete databases for the examples

    Small DuckDB stand-ins that answer the exact SQL texts the code
    sends, the way DuckDB answers them, and reject everything else. *)

Module Fixtures.


Definition syntax_error : Py.Exc := Py.mkExc "ParserException" "Parser Error: syntax error".


(** A file for [load_csv]: it exists, [chardet] says UTF-8, and DuckDB
    reads it into a table of three rows with one BIGINT column [a]. *)
Definition csv_execute (sql : string) : M unit Cursor :=
  if String.prefix "CREATE TABLE " sql then ret (mkCursor ["Count"] [[VInt 3]])
  else if String.prefix "SELECT COUNT(*) FROM " sql then ret (mkCursor ["count_star()"] [[VInt 3]])
  else if String.prefix "DESCRIBE " sql
  then ret (mkCursor ["column_name"; "column_type"] [[VText "a"; VText "BIGINT"]])
  else if String.prefix "DROP TABLE IF EXISTS " sql then ret (mkCursor [] [])
  else raise syntax_error.

Definition csv_exists (_ : string) : bool := true.
Definition csv_encoding (_ : string) : Py.Exc + string := inr "utf-8".
Definition csv_size (_ : string) : Py.Exc + Z := inr 42%Z.

(** A fragment of Python's Unicode database: [str.isalnum] and
    [str.isdigit] agree with Python on ASCII, on the Latin-1 letters
    U+00C0 .. U+00FF (but for U+00D7 and U+00F7) and on the CJK ideographs
    U+4E00 .. U+9FFC; every other code point counts as neither. *)
Definition uc_isalnum (c : Z) : bool :=
  if (c <? 128)%Z then Py.isalnum (Utf8.chr c)
  else ((0xC0 <=? c) && (c <=? 0xFF) && negb (c =? 0xD7) && negb (c =? 0xF7))%Z
       || ((0x4E00 <=? c) && (c <=? 0x9FFC))%Z.

Definition uc_isdigit (c : Z) : bool :=
  if (c <? 128)%Z then Py.isdigit (Utf8.chr c) else false.

Definition empty_engine : Engine unit := mkEngine tt ∅ ∅.

(** Two loads of [/home/u/data.csv], starting from the empty engine. *)
Definition no_info : TableInfo := mkTableInfo "" "" VNull [] 0%Z "".

Definition data_state1 : Engine unit := Eval vm_compute in
  fst (load_csv csv_execute csv_exists csv_encoding csv_size uc_isalnum uc_isdigit "/home/u/data.csv" None empty_engine).

Definition data_info1 : TableInfo := Eval vm_compute in
  match snd (load_csv csv_execute csv_exists csv_encoding csv_size uc_isalnum uc_isdigit "/home/u/data.csv" None empty_engine)
  with inr i => i | inl _ => no_info end.

Definition data_state2 : Engine unit := Eval vm_compute in
  fst (load_csv csv_execute csv_exists csv_encoding csv_size uc_isalnum uc_isdigit "/home/u/data.csv" None data_state1).

Definition data_info2 : TableInfo := Eval vm_compute in
  match snd (load_csv csv_execute csv_exists csv_encoding csv_size uc_isalnum uc_isdigit "/home/u/data.csv" None data_state1)
  with inr i => i | inl _ => no_info end.

(** Two loads of [/home/u/données.csv]. *)
Definition accent_path : string := "/home/u/données.csv".

Definition accent_state1 : Engine unit := Eval vm_compute in
  fst (load_csv csv_execute csv_exists csv_encoding csv_size uc_isalnum uc_isdigit
         accent_path None empty_engine).

Definition accent_info1 : TableInfo := Eval vm_compute in
  match snd (load_csv csv_execute csv_exists csv_encoding csv_size uc_isalnum uc_isdigit
               accent_path None empty_engine)
  with inr i => i | inl _ => no_info end.

Definition accent_state2 : Engine unit := Eval vm_compute in
  fst (load_csv csv_execute csv_exists csv_encoding csv_size uc_isalnum uc_isdigit
         accent_path None accent_state1).

Definition accent_info2 : TableInfo := Eval vm_compute in
  match snd (load_csv csv_execute csv_exists csv_encoding csv_size uc_isalnum uc_isdigit
               accent_path None accent_state1)
  with inr i => i | inl _ => no_info end.

(** An analyzer whose per-column statistics are constant, run on the
    engine holding [data]. *)
Definition col_stats_const (t c d : string) : M (Engine unit) ColumnStats :=
  ret (mkColumnStats c d (VInt 3) (VInt 0) (VInt 3) []).

Definition backend0 : Backend unit := mkBackend data_state1 ∅ true.

Definition no_stats : TableStats := mkTableStats "" VNull 0%Z VNull [] [] [].

Definition analyzed_backend : Backend unit := Eval vm_compute in
  fst (analyze_table col_stats_const "data" false backend0).

Definition analyzed_stats : TableStats := Eval vm_compute in
  match snd (analyze_table col_stats_const "data" false backend0) with
  | inr s => s
  | inl _ => no_stats
  end.

Definition env : Env unit :=
  mkEnv csv_execute csv_exists csv_encoding csv_size uc_isalnum uc_isdigit col_stats_const
    (fun _ _ => ret PNone) (fun _ _ => PNone) (fun _ _ => PNone) (fun _ => PNone).

Definition drop_payload : Payload := [("table_name", PStr "data")].

Definition dropped_backend : Backend unit := Eval vm_compute in
  fst (_handle_drop_table env drop_payload analyzed_backend).

Definition dropped_result : Py.Exc + PyVal := Eval vm_compute in
  snd (_handle_drop_table env drop_payload analyzed_backend).

(** A BIGINT column [x] of table [t] holding 0, 10, ..., 90. *)
Definition hist_values : list Z := map (fun i => 10 * Z.of_nat i)%Z (seq 0 10).

(** [FLOOR((v - min) / bin_width)] on a DOUBLE, as DuckDB computes it. *)
Definition bucket_of (mn : Z) (w : Q) (v : Z) : Z := Qfloor ((inject_Z v - inject_Z mn) / w).

Definition count_eq (k : Z) (ks : list Z) : nat := length (filter (fun x => Z.eqb x k) ks).

(** [GROUP BY bin ORDER BY bin] over the buckets [ks], each row being
    [(bin, count)] with [bin] a DOUBLE. *)
Definition group_by_bin (ks : list Z) : list (list Value) :=
  let lo := fold_right Z.min (hd 0%Z ks) ks in
  let hi := fold_right Z.max (hd 0%Z ks) ks in
  flat_map (fun i => let k := (lo + Z.of_nat i)%Z in
                     let n := count_eq k ks in
                     if Nat.eqb n 0 then [] else [[VNum (inject_Z k); VInt (Z.of_nat n)]])
           (seq 0 (Z.to_nat (hi - lo + 1))).

Definition hist_execute (sql : string) : M unit Cursor :=
  if String.eqb sql (minmax_sql "t" "x")
  then ret (mkCursor ["min(x)"; "max(x)"] [[VInt 0; VInt 90]])
  else if String.eqb sql (histogram_sql "t" "x" (VInt 0) (VNum 9%Q))
  then ret (mkCursor ["bin"; "count"] (group_by_bin (map (bucket_of 0 9%Q) hist_values)))
  else raise syntax_error.

Definition hist_engine : Engine unit :=
  mkEngine tt {[ "t" := mkTableInfo "t" "/home/u/t.csv" (VInt 10) [("x", "BIGINT")] 0%Z "utf-8" ]} ∅.

Definition bin_entry (k : Z) : PyVal := PDict [("bin", PInt k); ("count", PCell (VInt 1))].

(** The same worker, on a file system where reading the file for
    [chardet] raises [MemoryError()], whose [str] is empty. *)
Definition env_memerr : Env unit :=
  mkEnv csv_execute csv_exists (fun _ => inl (Py.mkExc "MemoryError" "")) csv_size
    uc_isalnum uc_isdigit col_stats_const (fun _ _ => ret PNone) (fun _ _ => PNone) (fun _ _ => PNone) (fun _ => PNone).

Definition load_msg : Message :=
  mkMessage "req_1" LOAD_CSV [("file_path", PStr "/home/u/data.csv")].

(** A database on which every [CREATE OR REPLACE VIEW] and every
    [DROP VIEW IF EXISTS] succeeds. *)
Definition view_execute (sql : string) : M unit Cursor :=
  if String.prefix "CREATE OR REPLACE VIEW " sql then ret (mkCursor [] [])
  else if String.prefix "DROP VIEW IF EXISTS " sql then ret (mkCursor [] [])
  else raise syntax_error.

Definition view_state1 : Engine unit := Eval vm_compute in
  fst (save_view view_execute "v" "SELECT 1" empty_engine).

Definition view_state2 : Engine unit := Eval vm_compute in
  fst (delete_view view_execute "v" view_state1).

(** The worker loading [/home/u/data.csv] into an empty engine. *)
Definition load_payload : Payload := [("file_path", PStr "/home/u/data.csv")].

Definition empty_backend : Backend unit := mkBackend empty_engine ∅ true.

Definition loaded_backend : Backend unit := Eval vm_compute in
  fst (_handle_load_csv env load_payload empty_backend).

Definition loaded_result : Py.Exc + PyVal := Eval vm_compute in
  snd (_handle_load_csv env load_payload empty_backend).

(** The worker on a database that accepts every view statement. *)
Definition view_env : Env unit :=
  mkEnv view_execute csv_exists csv_encoding csv_size uc_isalnum uc_isdigit col_stats_const
    (fun _ _ => ret PNone) (fun _ _ => PNone) (fun _ _ => PNone) (fun _ => PNone).

Definition view_payload : Payload := [("view_name", PStr "v"); ("sql", PStr "SELECT 1")].

Definition viewed_backend : Backend unit := Eval vm_compute in
  fst (_handle_save_view view_env view_payload empty_backend).

End Fixtures.

(* ------------------------------------------------------------------ *)
(** ** Frame predicates used by the proofs *)

(** A computation that leaves the table registry as it found it. *)
Definition keeps_tables {DB A} (m : M (Engine DB) A) : Prop :=
  forall st, tables (fst (m st)) = tables st.

(** A computation that, when it raises, leaves the registry as it found it. *)
Definition fails_clean {DB A} (m : M (Engine DB) A) : Prop :=
  forall st st' e, m st = (st', inl e) -> tables st' = tables st.

(** A computation of the worker that keeps every entry of the
    analyzer's cache. *)
Definition keeps_cache_entries {DB A} (m : M (Backend DB) A) : Prop :=
  forall b t s, cache b !! t = Some s -> cache (fst (m b)) !! t = Some s.

(** A computation of the worker that leaves its [running] flag as it is. *)
Definition keeps_running {DB A} (m : M (Backend DB) A) : Prop :=
  forall b, running (fst (m b)) = running b.

(** The sum of the counts of a [dtype_summary]. *)
Definition dtype_total (l : list (string * Z)) : Z :=
  fold_right (fun kv acc => (snd kv + acc)%Z) 0%Z l.

(** What every [TableStats] that [analyze_table] builds for [t] looks
    like: it names [t], [column_count] is the number of analyzed
    columns, and [dtype_summary] has distinct categories whose counts add
    up to [column_count]. *)
Definition stats_ok (t : string) (s : TableStats) : Prop :=
  ts_table_name s = t /\
  ts_column_count s = Z.of_nat (length (ts_columns s)) /\
  dtype_total (ts_dtype_summary s) = ts_column_count s /\
  NoDup (map fst (ts_dtype_summary s)).

Definition cache_ok {DB} (b : Backend DB) : Prop :=
  forall t s, cache b !! t = Some s -> stats_ok t s.

(** The response the listener stored last for [rid] among [rs]: the
    one [self._responses[rid]] holds after the deliveries [rs]. *)
Definition last_for (rid : string) (rs : list Response) : option Response :=
  List.find (fun r => String.eqb (request_id r) rid) (rev rs).

(** The first payload key each handler reads with [payload[...]]. *)
Definition required_key (t : MessageType) : option string :=
  match t with
  | LOAD_CSV => Some "file_path"
  | DROP_TABLE | GET_TABLE_INFO | GET_TABLE_DATA | ANALYZE_TABLE | ANALYZE_COLUMN
  | GET_MISSING_REPORT | GET_NUMERIC_SUMMARY | GET_COLUMN_DISTRIBUTION => Some "table_name"
  | EXECUTE_QUERY => Some "sql"
  | SAVE_VIEW | DELETE_VIEW => Some "view_name"
  | EXPORT_CSV => Some "sql_or_table"
  | GET_TABLES | GET_VIEWS | SHUTDOWN | RESPONSE | ERROR => None
  end.

(* ================================================================== *)
(** * Properties *)

(* ------------------------------------------------------------------ *)
(** ** [execute_query] *)




(** C4: [execute_query] never raises.  Whatever the statement, the call
    returns a [QueryResult]; when the body of its [try] raises [e], that
    result has the message [str(e)] in its error field and empty columns
    and data, [row_count = 0] and [total_rows = 0]; otherwise it is the
    body's result, whose error field is empty. *)
Theorem execute_query_total {DB} (execute : string -> M DB Cursor) (sql : string)
  (limit offset : PyVal) (d : DB) :
  (exists d' r, execute_query execute sql limit offset d = (d', inr r)) /\
  match execute_query_body execute sql limit offset d with
  | (d', inl e) =>
      execute_query execute sql limit offset d
        = (d', inr (mkQueryResult [] [] 0 (VInt 0) (Some (Py.exc_str e))))
  | (d', inr r) =>
      execute_query execute sql limit offset d = (d', inr r) /\ qr_error r = None
  end.
Proof.
  unfold execute_query, try_except.
  assert (Hok : forall d' r, execute_query_body execute sql limit offset d = (d', inr r) ->
                             qr_error r = None).
  { unfold execute_query_body, bind, ret.
    destruct (is_select sql).
    - destruct (execute (count_sql sql) d) as [d1 [e1|c1]]; [discriminate|].
      unfold fetchone0, raise, ret.
      destruct (rows c1) as [|[|v ?] ?]; try discriminate.
      destruct (execute (paginated_sql sql limit offset) d1) as [d2 [e2|c2]];
        [discriminate|].
      intros d' r H. inversion H. reflexivity.
    - destruct (execute sql d) as [d1 [e1|c1]]; [discriminate|].
      intros d' r H. inversion H. reflexivity. }
  destruct (execute_query_body execute sql limit offset d) as [d' [e|r]] eqn:Hb.
  - split; [eexists _, _; reflexivity | reflexivity].
  - split; [eexists _, _; reflexivity | split; [reflexivity | eauto]].
Qed.



(* ------------------------------------------------------------------ *)
(** ** [load_csv]: failures and table names *)

Section LoadCsvProps.

Context {DB : Type}.
Variable execute : string -> M DB Cursor.
Variable path_exists : string -> bool.
Variable detect_encoding : string -> Py.Exc + string.
Variable getsize : string -> Py.Exc + Z.
Variables ch_isalnum ch_isdigit : Z -> bool.

Lemma keeps_on_conn {A} (m : M DB A) : keeps_tables (on_conn m).
Proof. intros st. unfold on_conn. destruct (m (conn st)). reflexivity. Qed.

Lemma keeps_of_sum {A} (r : Py.Exc + A) : keeps_tables (DB := DB) (of_sum r).
Proof. intros st. reflexivity. Qed.

Lemma keeps_get : keeps_tables (DB := DB) get.
Proof. intros st. reflexivity. Qed.

Lemma fails_clean_raise {A} (e : Py.Exc) : fails_clean (DB := DB) (A := A) (raise e).
Proof. intros st st' e' H. inversion H. reflexivity. Qed.

Lemma fails_clean_bind {A B} (m : M (Engine DB) A) (k : A -> M (Engine DB) B) :
  keeps_tables m -> (forall a, fails_clean (k a)) -> fails_clean (bind m k).
Proof.
  intros Hm Hk st st' e. unfold bind.
  specialize (Hm st). destruct (m st) as [st1 [e1|a]] eqn:E; simpl in Hm.
  - intros H. inversion H; subst. exact Hm.
  - intros H. rewrite (Hk a st1 st' e H). exact Hm.
Qed.

Lemma fails_clean_register (t : string) (info : TableInfo) :
  fails_clean (DB := DB) (modify (set_tables (fun tb => <[t := info]> tb)) ;;; ret info).
Proof. intros st st' e H. discriminate H. Qed.

Lemma load_csv_fails_clean (file_path : string) (table_name : option string) :
  fails_clean (load_csv execute path_exists detect_encoding getsize ch_isalnum ch_isdigit file_path table_name).
Proof.
  unfold load_csv. destruct (negb (path_exists file_path)).
  - apply fails_clean_raise.
  - apply fails_clean_bind; [apply keeps_of_sum | intros encoding].
    apply fails_clean_bind; [apply keeps_get | intros st0].
    apply fails_clean_bind; [apply keeps_on_conn | intros _].
    apply fails_clean_bind; [apply keeps_on_conn | intros c].
    apply fails_clean_bind; [apply keeps_on_conn | intros row_count].
    apply fails_clean_bind; [apply keeps_on_conn | intros columns_info].
    apply fails_clean_bind; [apply keeps_of_sum | intros columns].
    apply fails_clean_bind; [apply keeps_of_sum | intros file_size].
    apply fails_clean_register.
Qed.

(** C6: [load_csv] raises a FileNotFoundError for a missing path before
    touching the connection or the registry, and every load that raises
    (missing path, unreadable file, both [CREATE TABLE] attempts failing,
    or a later step) leaves the registry of tables as it was. *)
Theorem load_csv_failure_keeps_registry (file_path : string) (table_name : option string)
  (st : Engine DB) :
  (path_exists file_path = false ->
   load_csv execute path_exists detect_encoding getsize ch_isalnum ch_isdigit file_path table_name st
   = (st, inl (file_not_found file_path))) /\
  (forall st' e,
     load_csv execute path_exists detect_encoding getsize ch_isalnum ch_isdigit file_path table_name st = (st', inl e) ->
     tables st' = tables st).
Proof.
  split.
  - intros Hmiss. unfold load_csv. rewrite Hmiss. reflexivity.
  - apply load_csv_fails_clean.
Qed.

(** A load that returns registers its [TableInfo] under the name chosen
    by lines 96-105, and nothing else changes in the registry. *)
Lemma load_csv_success (file_path : string) (table_name : option string)
  (st st' : Engine DB) (info : TableInfo) :
  load_csv execute path_exists detect_encoding getsize ch_isalnum ch_isdigit file_path table_name st = (st', inr info) ->
  ti_name info = choose_table_name ch_isalnum ch_isdigit (tables st) table_name file_path /\
  tables st' = <[ti_name info := info]> (tables st).
Proof.
  unfold load_csv, bind, of_sum, get, modify, ret, raise, on_conn. intros H.
  repeat (match goal with
          | Hm : context [match ?x with _ => _ end] |- _ => destruct x eqn:?; try discriminate Hm
          end).
  simplify_eq/=. split; reflexivity.
Qed.

End LoadCsvProps.

Lemma str_length_app (a b : string) : String.length (a ++ b) = String.length a + String.length b.
Proof. induction a as [|c a IH]; simpl; [reflexivity | rewrite IH; reflexivity]. Qed.

Lemma string_app_cancel_l (p a b : string) : p ++ a = p ++ b -> a = b.
Proof. induction p as [|c p IH]; simpl; intros H; [exact H | injection H; exact IH]. Qed.

Lemma to_uint_nonnil (n : nat) : Nat.to_uint n <> Decimal.Nil.
Proof.
  intros E. pose proof (Unsigned.of_to n) as H. rewrite E in H. simpl in H.
  subst n. discriminate E.
Qed.

Lemma str_nat_inj (n m : nat) : Py.str_nat n = Py.str_nat m -> n = m.
Proof.
  unfold Py.str_nat. intros H.
  apply Unsigned.to_uint_inj.
  pose proof (NilZero.usu (Nat.to_uint n) (to_uint_nonnil n)) as Hn.
  pose proof (NilZero.usu (Nat.to_uint m) (to_uint_nonnil m)) as Hm.
  rewrite H in Hn. rewrite Hn in Hm. injection Hm. auto.
Qed.

Lemma candidate_name_inj (original : string) (i j : nat) :
  candidate_name original i = candidate_name original j -> i = j.
Proof.
  destruct i as [|i], j as [|j]; simpl; intros H; auto.
  - apply (f_equal String.length) in H. rewrite str_length_app in H. simpl in H. lia.
  - apply (f_equal String.length) in H. rewrite str_length_app in H. simpl in H. lia.
  - apply string_app_cancel_l in H. injection H as H. apply str_nat_inj in H. auto.
Qed.

Lemma byte_chr (z : Z) : (0 <= z < 256)%Z -> Utf8.byte (Utf8.chr z) = z.
Proof.
  intros Hz. unfold Utf8.byte, Utf8.chr. rewrite nat_ascii_embedding by lia. lia.
Qed.

(** The quotients and remainders the UTF-8 encoder takes of a code point. *)
Ltac utf8_digits z :=
  pose proof (Z.div_mod z 64 ltac:(lia)) as ?D1;
  pose proof (Z.mod_pos_bound z 64 ltac:(lia)) as ?B1;
  pose proof (Z.div_mod (z / 64) 64 ltac:(lia)) as ?D2;
  pose proof (Z.mod_pos_bound (z / 64) 64 ltac:(lia)) as ?B2;
  pose proof (Z.div_mod (z / 4096) 64 ltac:(lia)) as ?D3;
  pose proof (Z.mod_pos_bound (z / 4096) 64 ltac:(lia)) as ?B3;
  let E2 := fresh "E" in let E3 := fresh "E" in
  assert (E2 : (z / 4096 = z / 64 / 64)%Z) by (rewrite Z.div_div by lia; reflexivity);
  assert (E3 : (z / 262144 = z / 4096 / 64)%Z) by (rewrite Z.div_div by lia; reflexivity);
  set (q1 := (z / 64)%Z) in *; set (r1 := (z mod 64)%Z) in *;
  set (q2 := (z / 4096)%Z) in *; set (r2 := (q1 mod 64)%Z) in *;
  set (q3 := (z / 262144)%Z) in *; set (r3 := (q2 mod 64)%Z) in *.

Ltac zcase :=
  match goal with
  | |- context [Z.ltb ?a ?b] => destruct (Z.ltb_spec a b); try (exfalso; lia)
  | |- context [Z.leb ?a ?b] => destruct (Z.leb_spec a b); try (exfalso; lia)
  end.

(** Decoding the UTF-8 bytes of a scalar value gives it back. *)
Lemma decode_encode_cp (z : Z) (s : string) :
  Utf8.scalar z -> Utf8.decode (Utf8.prepend (Utf8.encode_cp z) s) = z :: Utf8.decode s.
Proof.
  intros Hz. unfold Utf8.scalar in Hz. unfold Utf8.encode_cp.
  utf8_digits z.
  destruct (Z.ltb_spec z 0x80).
  { cbn [Utf8.prepend Utf8.decode]. rewrite byte_chr by lia. zcase. reflexivity. }
  destruct (Z.ltb_spec z 0x800).
  { cbn [Utf8.prepend Utf8.decode]. unfold Utf8.cont. rewrite !byte_chr by lia.
    repeat (zcase; cbn [andb negb]). f_equal. lia. }
  destruct (Z.leb_spec 0xDC80 z); [destruct (Z.leb_spec z 0xDCFF); [exfalso; lia|]|];
    cbn [andb];
    (destruct (Z.ltb_spec z 0x10000);
     cbn [Utf8.prepend Utf8.decode]; unfold Utf8.cont; rewrite !byte_chr by lia;
     repeat (zcase; cbn [andb negb]); f_equal; lia).
Qed.

Lemma decode_encode (cps : list Z) :
  Forall Utf8.scalar cps -> Utf8.decode (Utf8.encode cps) = cps.
Proof.
  induction 1 as [|z cps Hz _ IH]; [reflexivity|].
  cbn [Utf8.encode]. rewrite decode_encode_cp by exact Hz. rewrite IH. reflexivity.
Qed.

(** Every byte of a scalar value's encoding is the value itself (ASCII)
    or a byte of 128 and above. *)
Lemma encode_cp_bytes (z : Z) :
  Utf8.scalar z -> Forall (fun b => Utf8.byte b = z \/ (128 <= Utf8.byte b)%Z) (Utf8.encode_cp z).
Proof.
  intros Hz. unfold Utf8.scalar in Hz. unfold Utf8.encode_cp.
  utf8_digits z.
  repeat (zcase; cbn [andb negb]);
    repeat constructor; rewrite byte_chr by lia; lia.
Qed.

Lemma list_ascii_prepend (l : list ascii) (s : string) :
  list_ascii_of_string (Utf8.prepend l s) = (l ++ list_ascii_of_string s)%list.
Proof. induction l as [|c l IH]; simpl; [reflexivity | rewrite IH; reflexivity]. Qed.

(** No byte of the encoding is a dot when no code point is one. *)
Lemma encode_no_dot (cps : list Z) :
  Forall Utf8.scalar cps -> Forall (fun z => z <> 46%Z) cps ->
  ~ In dot (list_ascii_of_string (Utf8.encode cps)).
Proof.
  induction 1 as [|z cps Hz _ IH]; intros Hn; [simpl; tauto|].
  inversion Hn as [|? ? Hz46 Hn']; subst.
  cbn [Utf8.encode]. rewrite list_ascii_prepend. intros Hin. apply in_app_or in Hin as [Hin|Hin].
  - pose proof (encode_cp_bytes z Hz) as Hb. rewrite Forall_forall in Hb.
    apply list_elem_of_In in Hin. destruct (Hb dot Hin) as [E|E];
      change (Utf8.byte dot) with 46%Z in E; lia.
  - exact (IH Hn' Hin).
Qed.

Lemma rfind_from_absent (c : ascii) (i : nat) (s : string) (best : option nat) :
  ~ In c (list_ascii_of_string s) -> rfind_from c i s best = best.
Proof.
  revert i best. induction s as [|x s IH]; intros i best H; simpl; [reflexivity|].
  simpl in H. destruct (Ascii.eqb c x) eqn:E.
  - apply Ascii.eqb_eq in E. subst x. exfalso. apply H. left. reflexivity.
  - apply IH. tauto.
Qed.

(** A name of scalar values none of which is a dot is its own stem. *)
Lemma stem_encode (cps : list Z) :
  Forall Utf8.scalar cps -> Forall (fun z => z <> 46%Z) cps ->
  stem (Utf8.encode cps) = Utf8.encode cps.
Proof.
  intros Hs Hn. unfold stem.
  destruct (String.eqb (Utf8.encode cps) ".") eqn:E.
  - apply String.eqb_eq in E. apply (f_equal Utf8.decode) in E.
    rewrite decode_encode in E by exact Hs.
    change (Utf8.decode ".") with [46%Z] in E. subst cps.
    inversion Hn as [|? ? H46 _]. congruence.
  - unfold rfind. rewrite rfind_from_absent; [reflexivity|]. apply encode_no_dot; assumption.
Qed.

Lemma decode_nonempty (s : string) : s <> EmptyString -> Utf8.decode s <> [].
Proof.
  destruct s as [|c s]; [congruence|]. intros _. cbn [Utf8.decode].
  repeat case_match; discriminate.
Qed.

Lemma dedupe_spec (tbls : gmap string TableInfo) (original : string) (fuel k : nat) :
  exists j, (k <= j <= k + fuel)%nat /\
    dedupe_loop tbls original (candidate_name original k) (S k) fuel = candidate_name original j /\
    (forall i, (k <= i < j)%nat -> is_Some (tbls !! candidate_name original i)) /\
    ((j < k + fuel)%nat -> tbls !! candidate_name original j = None).
Proof.
  revert k. induction fuel as [|fuel IH]; intros k.
  - exists k. split; [lia|]. split; [reflexivity|]. split; [intros i Hi; lia | intros Hj; lia].
  - simpl. destruct (tbls !! candidate_name original k) as [v|] eqn:E.
    + destruct (IH (S k)) as (j & Hj & Heq & Hlt & Hfree).
      exists j. split; [lia|]. split; [exact Heq|]. split.
      * intros i Hi. destruct (decide (i = k)) as [->|Hik]; [rewrite E; eexists; reflexivity|].
        apply Hlt. lia.
      * intros Hj'. apply Hfree. lia.
    + exists k. split; [lia|]. split; [reflexivity|]. split; [intros i Hi; lia | intros _; exact E].
Qed.

Lemma candidate_names_nodup (original : string) (a n : nat) :
  NoDup (map (candidate_name original) (seq a n)).
Proof.
  revert a. induction n as [|n IH]; intros a; simpl; constructor.
  - intros Hin. apply list_elem_of_In, in_map_iff in Hin as (x & Hx & Hin). apply in_seq in Hin.
    apply candidate_name_inj in Hx. lia.
  - apply IH.
Qed.

Lemma candidates_not_all_taken (tbls : gmap string TableInfo) (original : string) :
  ~ (forall i, (i < S (size tbls))%nat -> is_Some (tbls !! candidate_name original i)).
Proof.
  intros Hall.
  assert (Hincl : incl (map (candidate_name original) (seq 0 (S (size tbls))))
                       (map fst (map_to_list tbls))).
  { intros x Hx. apply in_map_iff in Hx as (i & <- & Hi). apply in_seq in Hi.
    destruct (Hall i ltac:(lia)) as [v Hv].
    apply in_map_iff. exists (candidate_name original i, v). split; [reflexivity|].
    apply list_elem_of_In. apply elem_of_map_to_list. exact Hv. }
  pose proof (NoDup_incl_length (proj1 (NoDup_ListNoDup _) (candidate_names_nodup original 0 (S (size tbls)))) Hincl) as Hlen.
  rewrite !length_map, length_seq, length_map_to_list in Hlen. lia.
Qed.

(** The uniqueness loop returns a free name: the first of [original],
    [original_1], [original_2], ... that is not registered. *)
Lemma unique_table_name_spec (tbls : gmap string TableInfo) (original : string) :
  tbls !! unique_table_name tbls original = None /\
  exists k, unique_table_name tbls original = candidate_name original k /\
            forall i, (i < k)%nat -> is_Some (tbls !! candidate_name original i).
Proof.
  destruct (dedupe_spec tbls original (S (size tbls)) 0) as (j & Hj & Heq & Hlt & Hfree).
  change (dedupe_loop tbls original (candidate_name original 0) 1 (S (size tbls)))
    with (unique_table_name tbls original) in Heq.
  assert (Hless : (j < 0 + S (size tbls))%nat).
  { destruct (decide (j = S (size tbls))) as [->|Hne]; [|lia].
    exfalso. apply (candidates_not_all_taken tbls original). intros i Hi. apply Hlt. lia. }
  rewrite Heq. split; [exact (Hfree Hless)|].
  exists j. split; [reflexivity|]. intros i Hi. apply Hlt. lia.
Qed.

Section LoadCsvNames.

Context {DB : Type}.
Variable execute : string -> M DB Cursor.
Variable path_exists : string -> bool.
Variable detect_encoding : string -> Py.Exc + string.
Variable getsize : string -> Py.Exc + Z.
Variables ch_isalnum ch_isdigit : Z -> bool.
(** On ASCII, [str.isalnum] and [str.isdigit] are the ASCII letters and
    digits. *)
Hypothesis ascii_classes : forall c : Z, (0 <= c < 128)%Z ->
  ch_isalnum c = Py.isalnum (Utf8.chr c) /\ ch_isdigit c = Py.isdigit (Utf8.chr c).

Lemma sanitize_char_ok (c : Z) :
  ch_isalnum (sanitize_char ch_isalnum c) = true \/ sanitize_char ch_isalnum c = 95%Z.
Proof.
  unfold sanitize_char. destruct (ch_isalnum c) eqn:E; [left; exact E|].
  cbn [orb]. destruct (Z.eqb_spec c 95); [right; assumption | right; reflexivity].
Qed.

Lemma sanitize_chars_ok (l : list Z) :
  Forall (fun c => ch_isalnum c = true \/ c = 95%Z) (map (sanitize_char ch_isalnum) l).
Proof. induction l as [|c l IH]; constructor; [apply sanitize_char_ok | exact IH]. Qed.

Lemma ascii_alnum (c : Z) : (0 <= c < 128)%Z -> Py.isalnum (Utf8.chr c) = true ->
  ch_isalnum c = true.
Proof. intros Hc H. rewrite (proj1 (ascii_classes c Hc)). exact H. Qed.

(** A derived name is the UTF-8 encoding of a nonempty [str] of
    alphanumeric characters and underscores that does not start with a
    digit. *)
Lemma sanitize_table_name_shape (name : string) :
  exists cps, _sanitize_table_name ch_isalnum ch_isdigit name = Utf8.encode cps /\
    Forall (fun c => ch_isalnum c = true \/ c = 95%Z) cps /\
    exists c rest, cps = c :: rest /\ ch_isdigit c = false.
Proof.
  pose proof (sanitize_chars_ok (Utf8.decode (stem name))) as Hall.
  assert (Ht : ch_isalnum 116 = true) by (apply ascii_alnum; [lia | reflexivity]).
  assert (Hdt : ch_isdigit 116 = false) by (rewrite (proj2 (ascii_classes 116 ltac:(lia))); reflexivity).
  unfold _sanitize_table_name. cbv zeta.
  destruct (map (sanitize_char ch_isalnum) (Utf8.decode (stem name))) as [|c rest] eqn:Em.
  - exists [116; 97; 98; 108; 101; 95; 49]%Z. split; [reflexivity|]. split.
    + repeat (econstructor;
              [first [right; reflexivity | left; apply ascii_alnum; [lia | reflexivity]] |]).
      constructor.
    + exists 116%Z, [97; 98; 108; 101; 95; 49]%Z. split; [reflexivity | exact Hdt].
  - destruct (ch_isdigit c) eqn:Ed.
    + exists (116 :: 95 :: c :: rest)%Z. split; [reflexivity|]. split.
      * constructor; [left; exact Ht|]. constructor; [right; reflexivity|]. exact Hall.
      * exists 116%Z, (95 :: c :: rest)%Z. split; [reflexivity | exact Hdt].
    + exists (c :: rest). split; [reflexivity|]. split; [exact Hall|].
      exists c, rest. split; [reflexivity | exact Ed].
Qed.

Lemma sanitize_table_name_nonempty_stem (name : string) :
  let cs := map (sanitize_char ch_isalnum) (Utf8.decode (stem name)) in
  stem name <> EmptyString ->
  _sanitize_table_name ch_isalnum ch_isdigit name
  = Utf8.encode ((if ch_isdigit (hd 0%Z cs) then Utf8.decode "t_" else []) ++ cs).
Proof.
  intros cs Hne. pose proof (decode_nonempty _ Hne) as Hd.
  unfold _sanitize_table_name. cbv zeta. subst cs.
  destruct (Utf8.decode (stem name)) as [|x xs]; [congruence|].
  cbn [map hd]. destruct (ch_isdigit (sanitize_char ch_isalnum x)); reflexivity.
Qed.

(** C7: with no table name given, the name is derived from the base name
    of the file.  The extension is stripped, the rest is decoded into its
    characters (code points of the UTF-8 text), every character for which
    Python's [str.isalnum] is false and that is not an underscore becomes
    an underscore, and ["t_"] is put in front of a leading character for
    which [str.isdigit] holds (an empty stem gives ["table_1"]): the
    derived name is a nonempty [str] of alphanumeric characters and
    underscores that does not start with a digit.  The character classes
    are Python's Unicode database, here any classification that agrees
    with ASCII on ASCII.  The derived or supplied name is then made
    unique: the result is the first free name of [original],
    [original_1], [original_2], ....  Loading the same file twice
    registers two distinct names, the second being the derived name with
    a numeric suffix; on a registry holding neither [derived] nor
    [derived_1], the two names are exactly these. *)
Theorem load_csv_table_names (file_path : string) :
  let derived := _sanitize_table_name ch_isalnum ch_isdigit (basename file_path) in
  let cs := map (sanitize_char ch_isalnum) (Utf8.decode (stem (basename file_path))) in
  (exists cps, derived = Utf8.encode cps /\
     Forall (fun c => ch_isalnum c = true \/ c = 95%Z) cps /\
     exists c rest, cps = c :: rest /\ ch_isdigit c = false) /\
  (stem (basename file_path) <> EmptyString ->
   derived = Utf8.encode ((if ch_isdigit (hd 0%Z cs) then Utf8.decode "t_" else []) ++ cs)) /\
  (forall (tbls : gmap string TableInfo) (original : string),
     tbls !! unique_table_name tbls original = None /\
     exists k, unique_table_name tbls original = candidate_name original k /\
               forall i, (i < k)%nat -> is_Some (tbls !! candidate_name original i)) /\
  (forall (st st1 st2 : Engine DB) (i1 i2 : TableInfo),
     load_csv execute path_exists detect_encoding getsize ch_isalnum ch_isdigit
       file_path None st = (st1, inr i1) ->
     load_csv execute path_exists detect_encoding getsize ch_isalnum ch_isdigit
       file_path None st1 = (st2, inr i2) ->
     ti_name i1 <> ti_name i2 /\
     (exists k1, ti_name i1 = candidate_name derived k1) /\
     (exists k2, (1 <= k2)%nat /\ ti_name i2 = derived ++ "_" ++ Py.str_nat k2) /\
     (tables st !! derived = None -> tables st !! (derived ++ "_1") = None ->
      ti_name i1 = derived /\ ti_name i2 = derived ++ "_1")).
Proof.
  intros derived cs.
  split; [apply sanitize_table_name_shape|].
  split; [apply sanitize_table_name_nonempty_stem|].
  split; [apply unique_table_name_spec|].
  intros st st1 st2 i1 i2 H1 H2.
  destruct (load_csv_success execute path_exists detect_encoding getsize ch_isalnum ch_isdigit
              _ _ _ _ _ H1) as [N1 T1].
  destruct (load_csv_success execute path_exists detect_encoding getsize ch_isalnum ch_isdigit
              _ _ _ _ _ H2) as [N2 T2].
  change (choose_table_name ch_isalnum ch_isdigit (tables st) None file_path)
    with (unique_table_name (tables st) derived) in N1.
  change (choose_table_name ch_isalnum ch_isdigit (tables st1) None file_path)
    with (unique_table_name (tables st1) derived) in N2.
  destruct (unique_table_name_spec (tables st) derived) as (F1 & k1 & E1 & P1).
  destruct (unique_table_name_spec (tables st1) derived) as (F2 & k2 & E2 & P2).
  rewrite <- N1 in F1, E1. rewrite <- N2 in F2, E2.
  assert (In1 : tables st1 !! ti_name i1 = Some i1) by (rewrite T1; apply lookup_insert_eq).
  assert (Hder : is_Some (tables st1 !! derived)).
  { destruct k1 as [|k1].
    - simpl in E1. rewrite <- E1, In1. eexists; reflexivity.
    - rewrite T1. apply lookup_insert_is_Some'. right. apply (P1 0). lia. }
  assert (Hk2 : k2 <> 0%nat).
  { intros ->. simpl in E2. rewrite E2 in F2. rewrite F2 in Hder.
    destruct Hder as [v Hv]; discriminate Hv. }
  split; [|split; [|split]].
  - intros Heq. rewrite Heq in In1. rewrite F2 in In1. discriminate In1.
  - exists k1. exact E1.
  - destruct k2 as [|k2]; [congruence|]. exists (S k2). split; [lia | exact E2].
  - intros Hd Hd1.
    assert (Hk1 : k1 = 0%nat).
    { destruct k1 as [|k1]; [reflexivity|]. destruct (P1 0 ltac:(lia)) as [v Hv].
      simpl in Hv. rewrite Hd in Hv. discriminate Hv. }
    subst k1. simpl in E1.
    assert (Hne : derived <> derived ++ "_1").
    { intros Habs. apply (f_equal String.length) in Habs. rewrite str_length_app in Habs.
      simpl in Habs. lia. }
    split; [exact E1|].
    destruct k2 as [|[|k2]]; [congruence | exact E2 |].
    exfalso. destruct (P2 1 ltac:(lia)) as [v Hv].
    change (candidate_name derived 1) with (derived ++ "_1") in Hv.
    rewrite T1, lookup_insert_ne in Hv by (rewrite E1; exact Hne).
    rewrite Hd1 in Hv. discriminate Hv.
Qed.

End LoadCsvNames.

(** Loading [/home/u/données.csv] twice into an empty engine registers
    [données], then [données_1]: the accented letter is alphanumeric. *)
Lemma load_csv_table_names_witness :
  exists st1 i1 st2 i2,
    load_csv Fixtures.csv_execute Fixtures.csv_exists Fixtures.csv_encoding Fixtures.csv_size
      Fixtures.uc_isalnum Fixtures.uc_isdigit "/home/u/données.csv" None Fixtures.empty_engine
    = (st1, inr i1) /\
    load_csv Fixtures.csv_execute Fixtures.csv_exists Fixtures.csv_encoding Fixtures.csv_size
      Fixtures.uc_isalnum Fixtures.uc_isdigit "/home/u/données.csv" None st1 = (st2, inr i2) /\
    ti_name i1 = "données" /\ ti_name i2 = "données_1".
Proof.
  exists Fixtures.accent_state1, Fixtures.accent_info1,
         Fixtures.accent_state2, Fixtures.accent_info2.
  split; [vm_compute; reflexivity|]. split; [vm_compute; reflexivity|].
  assert (Hascii : forall c : Z, (0 <= c < 128)%Z ->
            Fixtures.uc_isalnum c = Py.isalnum (Utf8.chr c) /\
            Fixtures.uc_isdigit c = Py.isdigit (Utf8.chr c)).
  { intros c Hc. unfold Fixtures.uc_isalnum, Fixtures.uc_isdigit.
    destruct (Z.ltb_spec c 128); [split; reflexivity | lia]. }
  destruct (load_csv_table_names Fixtures.csv_execute Fixtures.csv_exists Fixtures.csv_encoding
              Fixtures.csv_size Fixtures.uc_isalnum Fixtures.uc_isdigit Hascii
              "/home/u/données.csv") as (_ & _ & _ & Hload).
  destruct (Hload Fixtures.empty_engine _ _ _ _ eq_refl eq_refl) as (_ & _ & _ & Hnames).
  exact (Hnames eq_refl eq_refl).
Defined.

(* ------------------------------------------------------------------ *)
(** ** The analyzer's cache *)

Section CacheProps.

Context {DB : Type}.
Variable _analyze_column : string -> string -> string -> M (Engine DB) ColumnStats.

(** A call with [force_refresh=False] on a cached table returns the
    cached stats and changes nothing. *)
Lemma analyze_table_hit (t : string) (b : Backend DB) (s : TableStats) :
  cache b !! t = Some s -> analyze_table _analyze_column t false b = (b, inr s).
Proof. intros H. unfold analyze_table, bind, get. simpl. rewrite H. reflexivity. Qed.

(** A call that returns leaves its result in the cache. *)
Lemma analyze_table_stores (t : string) (force : bool) (b b' : Backend DB) (s : TableStats) :
  analyze_table _analyze_column t force b = (b', inr s) -> cache b' !! t = Some s.
Proof.
  unfold analyze_table, bind, get, modify, ret, raise, on_engine. intros H.
  repeat (match goal with
          | Hm : context [match ?x with _ => _ end] |- _ => destruct x eqn:?; try discriminate Hm
          end);
  simplify_eq/=; first [assumption | apply lookup_insert_eq].
Qed.

(** Without [force_refresh], analyzing only adds entries: a miss stores
    the new stats under a name that had none. *)
Lemma analyze_table_keeps_entries (t : string) :
  keeps_cache_entries (analyze_table _analyze_column t false).
Proof.
  intros b t' s Hs. destruct (analyze_table _analyze_column t false b) as [b' r] eqn:E. simpl.
  unfold analyze_table, bind, get, modify, ret, raise, on_engine in E. simpl in E.
  destruct (cache b !! t) as [c|] eqn:Ht; [simplify_eq; exact Hs|].
  repeat (match goal with
          | Hm : context [match ?x with _ => _ end] |- _ => destruct x eqn:?
          end); simplify_eq/=; try exact Hs.
  rewrite lookup_insert_ne by congruence. exact Hs.
Qed.

End CacheProps.

Lemma kce_ret {DB A} (a : A) : keeps_cache_entries (DB := DB) (ret a).
Proof. intros b t s H. exact H. Qed.

Lemma kce_raise {DB A} (e : Py.Exc) : keeps_cache_entries (DB := DB) (A := A) (raise e).
Proof. intros b t s H. exact H. Qed.

Lemma kce_get {DB} : keeps_cache_entries (DB := DB) get.
Proof. intros b t s H. exact H. Qed.

Lemma kce_on_engine {DB A} (m : M (Engine DB) A) : keeps_cache_entries (on_engine m).
Proof. intros b t s H. unfold on_engine. destruct (m (engine b)). exact H. Qed.

Lemma kce_bind {DB A B} (m : M (Backend DB) A) (k : A -> M (Backend DB) B) :
  keeps_cache_entries m -> (forall a, keeps_cache_entries (k a)) ->
  keeps_cache_entries (bind m k).
Proof.
  intros Hm Hk b t s H. unfold bind. specialize (Hm b t s H).
  destruct (m b) as [b1 [e|a]]; simpl in *; [exact Hm | apply Hk; exact Hm].
Qed.

Lemma kce_try_except {DB A} (m : M (Backend DB) A) (h : Py.Exc -> M (Backend DB) A) :
  keeps_cache_entries m -> (forall e, keeps_cache_entries (h e)) ->
  keeps_cache_entries (try_except m h).
Proof.
  intros Hm Hh b t s H. unfold try_except. specialize (Hm b t s H).
  destruct (m b) as [b1 [e|a]]; simpl in *; [apply Hh; exact Hm | exact Hm].
Qed.

Lemma kce_item {DB} (p : Payload) (k : string) : keeps_cache_entries (DB := DB) (item p k).
Proof. intros b t s H. unfold item. destruct (assoc_get k p); exact H. Qed.

Lemma kce_get_or {DB} (p : Payload) (k : string) (d : PyVal) :
  keeps_cache_entries (DB := DB) (get_or p k d).
Proof. intros b t s H. exact H. Qed.

Lemma kce_get_or_bind {DB A} (p : Payload) (k : string) (d : PyVal) (f : PyVal -> M (Backend DB) A) :
  keeps_cache_entries (f (default d (assoc_get k p))) -> keeps_cache_entries (bind (get_or p k d) f).
Proof. intros H b t s Hs. exact (H b t s Hs). Qed.

Lemma kce_as_str {DB} (v : PyVal) : keeps_cache_entries (DB := DB) (as_str v).
Proof. intros b t s H. unfold as_str. destruct v; exact H. Qed.

Lemma kce_as_int {DB} (v : PyVal) : keeps_cache_entries (DB := DB) (as_int v).
Proof. intros b t s H. unfold as_int. destruct v; exact H. Qed.

Lemma kce_shutdown_modify {DB} :
  keeps_cache_entries (DB := DB) (modify (fun b => mkBackend (engine b) (cache b) false)).
Proof. intros b t s H. exact H. Qed.

Create HintDb cache_frame.

#[local] Hint Resolve kce_ret kce_raise kce_get kce_on_engine kce_item kce_get_or
  kce_as_str kce_as_int kce_shutdown_modify analyze_table_keeps_entries : cache_frame.

Ltac cache_frame :=
  repeat (first [ solve [auto with cache_frame]
                | apply kce_bind; [| intros ?] | apply kce_try_except; [| intros ?] ]).

(** Every handler keeps the cached entries, except [analyze_table] when
    the payload's [force_refresh] is truthy. *)
Lemma handle_message_keeps_entries {DB} (env : Env DB) (m : Message) :
  ~ (type m = ANALYZE_TABLE /\
     truthy (default (PBool false) (assoc_get "force_refresh" (payload m))) = true) ->
  keeps_cache_entries (_handle_message env m).
Proof.
  intros Hnot. unfold _handle_message. apply kce_try_except; [|intros; apply kce_ret].
  destruct (type m) eqn:Ety; simpl; try apply kce_ret;
    unfold _handle_load_csv, _handle_drop_table, _handle_get_tables, _handle_get_table_info,
      _handle_execute_query, _handle_get_table_data, _handle_save_view, _handle_get_views,
      _handle_delete_view, _handle_analyze_table, _handle_analyze_column,
      _handle_get_missing_report, _handle_get_numeric_summary,
      _handle_get_column_distribution, _handle_export_csv, _handle_shutdown.
  all: try solve [cache_frame].
  (* [analyze_table] with the payload's flag *)
  apply kce_bind; [|intros; apply kce_ret].
  apply kce_bind; [cache_frame | intros t].
  apply kce_get_or_bind.
  destruct (truthy (default (PBool false) (assoc_get "force_refresh" (payload m)))) eqn:Hf.
  - exfalso. apply Hnot. split; reflexivity.
  - cache_frame.
Qed.

(** C8: [analyze_table(t, force_refresh=False)] called twice in a row
    returns the same [TableStats]; the second call is a cache hit that
    leaves the whole state (engine, cache, flag) as it is. *)
Theorem analyze_table_twice {DB : Type}
  (_analyze_column : string -> string -> string -> M (Engine DB) ColumnStats)
  (t : string) (b b1 : Backend DB) (s : TableStats) :
  analyze_table _analyze_column t false b = (b1, inr s) ->
  analyze_table _analyze_column t false b1 = (b1, inr s).
Proof.
  intros H. apply analyze_table_hit. exact (analyze_table_stores _analyze_column t false b b1 s H).
Qed.

(** Analyzing [data] on the engine of the two loads, then once more. *)
Lemma analyze_table_twice_witness :
  analyze_table Fixtures.col_stats_const "data" false Fixtures.backend0
  = (Fixtures.analyzed_backend, inr Fixtures.analyzed_stats) /\
  ts_table_name Fixtures.analyzed_stats = "data" /\
  analyze_table Fixtures.col_stats_const "data" false Fixtures.analyzed_backend
  = (Fixtures.analyzed_backend, inr Fixtures.analyzed_stats).
Proof.
  assert (H : analyze_table Fixtures.col_stats_const "data" false Fixtures.backend0
              = (Fixtures.analyzed_backend, inr Fixtures.analyzed_stats))
    by (vm_compute; reflexivity).
  split; [exact H|]. split; [vm_compute; reflexivity|].
  exact (analyze_table_twice Fixtures.col_stats_const "data" _ _ _ H).
Defined.

(** C9: dropping a table leaves the analyzer's cache as it is, so a
    later [analyze_table(t, force_refresh=False)] returns the stats cached
    before the drop; and no message the worker handles removes or
    replaces a cache entry, except [analyze_table] with a truthy
    [force_refresh] ([clear_cache] is never called by the worker). *)
Theorem cache_survives_drop {DB : Type} (env : Env DB) :
  (forall p b b' r t s,
     _handle_drop_table env p b = (b', r) -> cache b !! t = Some s ->
     cache b' = cache b /\
     analyze_table (env_analyze_column_stats env) t false b' = (b', inr s)) /\
  (forall md b q b' q' t s,
     worker_iteration env md (b, q) = (b', q') -> cache b !! t = Some s ->
     cache b' !! t = Some s \/
     exists m, from_dict md = inr m /\ type m = ANALYZE_TABLE /\
               truthy (default (PBool false) (assoc_get "force_refresh" (payload m))) = true).
Proof.
  split.
  - intros p b b' r t s H Hs.
    assert (Hc : cache b' = cache b).
    { unfold _handle_drop_table, bind, item, as_str, ret, raise, on_engine in H.
      repeat (match goal with
              | Hm : context [match ?x with _ => _ end] |- _ => destruct x eqn:?
              end); simplify_eq/=; reflexivity. }
    split; [exact Hc|]. apply analyze_table_hit. rewrite Hc. exact Hs.
  - intros md b q b' q' t s H Hs. unfold worker_iteration in H.
    destruct (from_dict md) as [e|m] eqn:Ed; [inversion H; subst; left; exact Hs|].
    destruct (_handle_message env m b) as [b1 r] eqn:Eh.
    assert (Hb : b' = b1) by (destruct r; inversion H; reflexivity). subst b1.
    destruct (match type m with ANALYZE_TABLE => true | _ => false end) eqn:Ha.
    + destruct (truthy (default (PBool false) (assoc_get "force_refresh" (payload m)))) eqn:Hf.
      * right. exists m. split; [reflexivity|]. split; [|exact Hf].
        destruct (type m); try discriminate Ha; reflexivity.
      * left. assert (Hnot : ~ (type m = ANALYZE_TABLE /\
          truthy (default (PBool false) (assoc_get "force_refresh" (payload m))) = true)).
        { intros [_ Ht]. congruence. }
        pose proof (handle_message_keeps_entries env m Hnot b t s Hs) as K.
        rewrite Eh in K. exact K.
    + left. assert (Hnot : ~ (type m = ANALYZE_TABLE /\
          truthy (default (PBool false) (assoc_get "force_refresh" (payload m))) = true)).
      { intros [Ht _]. rewrite Ht in Ha. discriminate Ha. }
      pose proof (handle_message_keeps_entries env m Hnot b t s Hs) as K.
      rewrite Eh in K. exact K.
Qed.

(** Dropping [data] after analyzing it: the table is gone from the
    registry, and its stats are still served from the cache. *)
Lemma cache_survives_drop_witness :
  _handle_drop_table Fixtures.env Fixtures.drop_payload Fixtures.analyzed_backend
  = (Fixtures.dropped_backend, Fixtures.dropped_result) /\
  cache Fixtures.analyzed_backend !! "data" = Some Fixtures.analyzed_stats /\
  Fixtures.dropped_result = inr (PBool true) /\
  tables (engine Fixtures.dropped_backend) !! "data" = None /\
  analyze_table (env_analyze_column_stats Fixtures.env) "data" false Fixtures.dropped_backend
  = (Fixtures.dropped_backend, inr Fixtures.analyzed_stats).
Proof.
  assert (H : _handle_drop_table Fixtures.env Fixtures.drop_payload Fixtures.analyzed_backend
              = (Fixtures.dropped_backend, Fixtures.dropped_result)) by (vm_compute; reflexivity).
  assert (Hs : cache Fixtures.analyzed_backend !! "data" = Some Fixtures.analyzed_stats)
    by (vm_compute; reflexivity).
  split; [exact H|]. split; [exact Hs|]. split; [vm_compute; reflexivity|].
  split; [vm_compute; reflexivity|].
  exact (proj2 (proj1 (cache_survives_drop Fixtures.env) _ _ _ _ _ _ H Hs)).
Defined.

(* ------------------------------------------------------------------ *)
(** ** [BackendWorker._handle_message]: one response per message *)

Lemma message_type_of_value (t : MessageType) : message_type_of (value t) = inr t.
Proof. destruct t; reflexivity. Qed.

Lemma from_dict_to_dict (m : Message) : from_dict (to_dict m) = inr m.
Proof.
  destruct m as [i t p]. unfold from_dict, to_dict. simpl.
  rewrite message_type_of_value. reflexivity.
Qed.

Lemma kr_ret {DB A} (a : A) : keeps_running (DB := DB) (ret a).
Proof. intros b. reflexivity. Qed.

Lemma kr_raise {DB A} (e : Py.Exc) : keeps_running (DB := DB) (A := A) (raise e).
Proof. intros b. reflexivity. Qed.

Lemma kr_get {DB} : keeps_running (DB := DB) get.
Proof. intros b. reflexivity. Qed.

Lemma kr_on_engine {DB A} (m : M (Engine DB) A) : keeps_running (on_engine m).
Proof. intros b. unfold on_engine. destruct (m (engine b)). reflexivity. Qed.

Lemma kr_set_cache {DB} (f : gmap string TableStats -> gmap string TableStats) :
  keeps_running (DB := DB) (modify (set_cache f)).
Proof. intros b. reflexivity. Qed.

Lemma kr_bind {DB A B} (m : M (Backend DB) A) (k : A -> M (Backend DB) B) :
  keeps_running m -> (forall a, keeps_running (k a)) -> keeps_running (bind m k).
Proof.
  intros Hm Hk b. unfold bind. specialize (Hm b).
  destruct (m b) as [b1 [e|a]]; simpl in *; [exact Hm | rewrite Hk; exact Hm].
Qed.

Lemma kr_item {DB} (p : Payload) (k : string) : keeps_running (DB := DB) (item p k).
Proof. intros b. unfold item. destruct (assoc_get k p); reflexivity. Qed.

Lemma kr_get_or {DB} (p : Payload) (k : string) (d : PyVal) :
  keeps_running (DB := DB) (get_or p k d).
Proof. intros b. reflexivity. Qed.

Lemma kr_as_str {DB} (v : PyVal) : keeps_running (DB := DB) (as_str v).
Proof. intros b. unfold as_str. destruct v; reflexivity. Qed.

Lemma kr_as_int {DB} (v : PyVal) : keeps_running (DB := DB) (as_int v).
Proof. intros b. unfold as_int. destruct v; reflexivity. Qed.

Create HintDb running_frame.

#[local] Hint Resolve kr_ret kr_raise kr_get kr_on_engine kr_set_cache kr_item kr_get_or
  kr_as_str kr_as_int : running_frame.

Ltac running_frame :=
  repeat (first [ solve [auto with running_frame]
                | apply kr_bind; [| intros ?]
                | match goal with |- keeps_running (match ?x with _ => _ end) => destruct x end ]).

Lemma kr_analyze_table {DB} (ac : string -> string -> string -> M (Engine DB) ColumnStats)
  (t : string) (force : bool) : keeps_running (analyze_table ac t force).
Proof. unfold analyze_table. running_frame. Qed.

#[local] Hint Resolve kr_analyze_table : running_frame.

(** A handler that raises has not changed the [running] flag: only
    [_handle_shutdown] clears it, and it never raises. *)
Lemma handler_raise_keeps_running {DB} (env : Env DB) (t : MessageType)
  (h : Payload -> M (Backend DB) PyVal) (p : Payload) (b b1 : Backend DB) (e : Py.Exc) :
  handler env t = Some h -> h p b = (b1, inl e) -> running b1 = running b.
Proof.
  intros Hh Eh.
  assert (K : t <> SHUTDOWN -> keeps_running (h p)).
  { intros Hne. destruct t; simpl in Hh; try discriminate Hh; injection Hh as <-;
      try (exfalso; apply Hne; reflexivity);
      unfold _handle_load_csv, _handle_drop_table, _handle_get_tables, _handle_get_table_info,
        _handle_execute_query, _handle_get_table_data, _handle_save_view, _handle_get_views,
        _handle_delete_view, _handle_analyze_table, _handle_analyze_column,
        _handle_get_missing_report, _handle_get_numeric_summary,
        _handle_get_column_distribution, _handle_export_csv;
      running_frame. }
  destruct t; try (pose proof (K ltac:(discriminate) b) as Kb; rewrite Eh in Kb; exact Kb).
  simpl in Hh. injection Hh as <-. discriminate Eh.
Qed.

(** C1 (as the code has it): every message the worker decodes gets
    exactly one response, carrying the message's id.  A kind without a
    handler ([response], [error]) gets [success=False] and the error
    ["Unknown message type: <kind>"].  A handler that raises gets
    [success=False] and the error [str(e)] of the exception it raised,
    and the [running] flag is left as it was, so the loop goes on. *)
Theorem handle_message_one_response {DB} (env : Env DB) (m : Message)
  (b : Backend DB) (q : list Response) :
  exists b' r,
    worker_iteration env (to_dict m) (b, q) = (b', (q ++ [r])%list) /\
    request_id r = id m /\
    (handler env (type m) = None ->
       b' = b /\ success r = false /\
       error r = Some ("Unknown message type: " ++ value (type m))) /\
    (forall h e b1, handler env (type m) = Some h -> h (payload m) b = (b1, inl e) ->
       b' = b1 /\ success r = false /\ error r = Some (Py.exc_str e) /\
       running b' = running b).
Proof.
  unfold worker_iteration. rewrite from_dict_to_dict.
  unfold _handle_message, try_except, bind, ret.
  destruct (handler env (type m)) as [h|] eqn:Hh.
  - destruct (h (payload m) b) as [b1 [e|res]] eqn:Ehb.
    + eexists b1, _. split; [reflexivity|]. split; [reflexivity|]. split; [discriminate|].
      intros h' e' b1' Hh' Eh'. injection Hh' as <-. rewrite Ehb in Eh'.
      injection Eh' as <- <-. split; [reflexivity|]. split; [reflexivity|].
      split; [reflexivity|]. exact (handler_raise_keeps_running env (type m) h _ b b1 e Hh Ehb).
    + eexists b1, _. split; [reflexivity|]. split; [reflexivity|]. split; [discriminate|].
      intros h' e' b1' Hh' Eh'. injection Hh' as <-. rewrite Ehb in Eh'. discriminate Eh'.
  - eexists b, _. split; [reflexivity|]. split; [reflexivity|].
    split; [intros _; split; [reflexivity|]; split; reflexivity|].
    intros h' e' b1' Hh'. discriminate Hh'.
Qed.

(** C1 as stated fails: [load_csv] on a file whose encoding detection
    raises [MemoryError()] gives a failed response whose error string is
    empty. *)
Lemma handle_message_empty_error :
  snd (worker_iteration Fixtures.env_memerr (to_dict Fixtures.load_msg) (Fixtures.backend0, []))
  = [mkResponse "req_1" false PNone (Some "")].
Proof. vm_compute. reflexivity. Qed.

(* ------------------------------------------------------------------ *)
(** ** [IPCClient.send_message]: the timeout path *)

(** Deliveries of responses for other ids do not touch the pending
    entry of [rid]. *)
Lemma deliver_all_pending_other (rid : string) (rs : list Response) (c : Client) :
  Forall (fun r => request_id r <> rid) rs ->
  pending_requests (deliver_all c rs) !! rid = pending_requests c !! rid.
Proof.
  revert c. induction rs as [|r rs IH]; intros c Hf; [reflexivity|].
  inversion Hf as [|? ? Hr Hrs]; subst. unfold deliver_all. simpl.
  change (fold_left deliver rs (deliver c r)) with (deliver_all (deliver c r) rs).
  rewrite (IH _ Hrs). unfold deliver. simpl.
  destruct (pending_requests c !! request_id r); [|reflexivity].
  apply lookup_insert_ne. exact Hr.
Qed.

(** C2: when no response for the generated id [req_<n>] arrives while
    [event.wait(timeout)] blocks, [send_message] returns the synthetic
    response [success=False, error="Request timeout"] for that id, and on
    return neither [_pending_requests] nor [_responses] has an entry for
    it, whatever the listener stored after the wait ended. *)
Theorem send_message_timeout (msg_type : MessageType) (p : Payload)
  (during_wait after_wait : list Response) (c : Client) :
  let rid := "req_" ++ Py.str_nat (S (request_id_counter c)) in
  Forall (fun r => request_id r <> rid) during_wait ->
  exists c', send_message msg_type p during_wait after_wait c = (c', timeout_response rid) /\
             pending_requests c' !! rid = None /\ responses c' !! rid = None.
Proof.
  intros rid Hf. unfold send_message, _generate_request_id. cbn zeta beta iota.
  fold rid. rewrite (deliver_all_pending_other rid during_wait _ Hf). simpl.
  rewrite lookup_insert_eq.
  eexists. split; [reflexivity|]. unfold timeout_cleanup. simpl.
  split; apply lookup_delete_eq.
Qed.

(** A [get_tables] call from a fresh client: a response for another
    request arrives during the wait, the one for [req_1] only after it. *)
Lemma send_message_timeout_witness :
  Forall (fun r => request_id r <> "req_1") [mkResponse "req_7" true PNone None] /\
  exists c', send_message GET_TABLES [] [mkResponse "req_7" true PNone None]
               [mkResponse "req_1" true PNone None] (mkClient 0 ∅ ∅ [])
             = (c', timeout_response "req_1") /\
             pending_requests c' !! "req_1" = None /\ responses c' !! "req_1" = None.
Proof.
  assert (H : Forall (fun r => request_id r <> "req_1") [mkResponse "req_7" true PNone None]).
  { constructor; [simpl; discriminate | constructor]. }
  split; [exact H|].
  exact (send_message_timeout GET_TABLES [] [mkResponse "req_7" true PNone None]
           [mkResponse "req_1" true PNone None] (mkClient 0 ∅ ∅ []) H).
Defined.

(* ------------------------------------------------------------------ *)
(** ** [get_column_distribution]: the bucket of the maximum *)

Lemma Qred_inject_Z (z : Z) : Qred (inject_Z z) = inject_Z z.
Proof.
  unfold Qred, inject_Z. cbn [Qnum Qden].
  pose proof (Z.ggcd_gcd z 1) as Hg. pose proof (Z.ggcd_correct_divisors z 1) as Hd.
  destruct (Z.ggcd z 1) as [g [aa bb]]. cbn [fst snd] in *.
  rewrite Z.gcd_1_r in Hg. subst g. destruct Hd as [Ha Hb].
  rewrite Z.mul_1_l in Ha, Hb. subst. reflexivity.
Qed.

(** C5 (what the code computes): take integer bounds with [max - min] a
    positive multiple [k * bins] of [bins > 0], and [k * bins <= 2^53].
    Then every value in the computation is an integer a DOUBLE holds
    exactly, so Python's float division and DuckDB's division return the
    exact quotients computed here.  [bin_width] is the float [k], written
    into the SQL text as [k.0] (Python's [repr] of it), and the maximum
    falls into bucket [FLOOR((max - min) / bin_width) = bins], one past
    the last bucket of [0 .. bins - 1].  On the column 0, 10, ..., 90 with
    [bins=10] the histogram has the buckets 0 to 8 and 10; bucket 9 is
    empty. *)
Theorem histogram_max_value_bucket :
  (forall mn mx k bins : Z, (0 < k)%Z -> (0 < bins)%Z -> (mx - mn = k * bins)%Z ->
     (k * bins <= 2 ^ 53)%Z ->
     bin_width_of (VInt mn) (VInt mx) bins = inr (VNum (inject_Z k)) /\
     value_str (VNum (inject_Z k)) = Py.str_int k ++ ".0" /\
     Qfloor ((inject_Z mx - inject_Z mn) / inject_Z k) = bins) /\
  snd (get_column_distribution Fixtures.hist_execute "t" "x" 10 Fixtures.hist_engine)
  = inr (PDict [("table_name", PStr "t"); ("column_name", PStr "x"); ("dtype", PStr "BIGINT");
                ("histogram",
                 PDict [("bins", PInt 10); ("min", PCell (VNum 0%Q)); ("max", PCell (VNum 90%Q));
                        ("bin_width", PCell (VNum 9%Q));
                        ("data", PList (map Fixtures.bin_entry [0; 1; 2; 3; 4; 5; 6; 7; 8; 10]%Z))])]).
Proof.
  split; [|vm_compute; reflexivity].
  intros mn mx k bins Hk Hpos Hd _.
  assert (Hsub : (inject_Z mx - inject_Z mn == inject_Z k * inject_Z bins)%Q).
  { unfold Qminus. rewrite <- inject_Z_opp, <- inject_Z_plus, <- inject_Z_mult.
    apply inject_Z_injective. lia. }
  assert (Hb : ~ (inject_Z bins == 0)).
  { change 0%Q with (inject_Z 0). rewrite inject_Z_injective. lia. }
  assert (Hk0 : ~ (inject_Z k == 0)).
  { change 0%Q with (inject_Z 0). rewrite inject_Z_injective. lia. }
  split; [|split].
  - unfold bin_width_of. cbn [num_of_value].
    destruct (Qeq_bool (inject_Z mx) (inject_Z mn)) eqn:E.
    + apply Qeq_bool_eq in E. exfalso. unfold Qeq in E. simpl in E. nia.
    + destruct (bins =? 0)%Z eqn:Eb; [apply Z.eqb_eq in Eb; lia|].
      do 2 f_equal.
      transitivity (Qred (inject_Z k)).
      * apply Qred_complete. rewrite Hsub. field. exact Hb.
      * apply Qred_inject_Z.
  - reflexivity.
  - rewrite (Qfloor_comp _ (inject_Z bins)); [apply Qfloor_Z|].
    rewrite Hsub. field. exact Hk0.
Qed.

(* ------------------------------------------------------------------ *)
(** ** The engine's registry operations: [drop_table], [save_view],
       [delete_view], [export_to_csv] *)

(** [drop_table] never raises.  It answers [True] exactly when DuckDB
    ran the [DROP TABLE IF EXISTS] statement, and then the name is gone
    from the registry; on [False] the registry is as it was.  The saved
    views are never touched. *)
Theorem drop_table_outcome {DB} (execute : string -> M DB Cursor) (t : string) (st : Engine DB) :
  exists st' b, drop_table execute t st = (st', inr b) /\
    views st' = views st /\
    (b = true -> tables st' = delete t (tables st)) /\
    (b = false -> tables st' = tables st) /\
    (b = false <-> exists d e, execute (drop_table_sql t) (conn st) = (d, inl e)).
Proof.
  unfold drop_table, try_except, bind, on_conn, modify, ret. simpl.
  destruct (execute (drop_table_sql t) (conn st)) as [d [e|c]] eqn:E; simpl.
  - exists (mkEngine d (tables st) (views st)), false.
    split; [reflexivity|]. split; [reflexivity|]. split; [discriminate|].
    split; [reflexivity|]. split; [intros _; eauto | reflexivity].
  - exists (mkEngine d (delete t (tables st)) (views st)), true.
    split; [reflexivity|]. split; [reflexivity|]. split; [reflexivity|].
    split; [discriminate|]. split; [discriminate|].
    intros (d' & e' & E'). discriminate E'.
Qed.

(** [save_view] never raises.  On [True] (DuckDB accepted the
    [CREATE OR REPLACE VIEW]) the view's SQL text is recorded under its
    name, replacing an older one; on [False] the views are as they were.
    The table registry is never touched. *)
Theorem save_view_outcome {DB} (execute : string -> M DB Cursor) (v sql : string) (st : Engine DB) :
  exists st' b, save_view execute v sql st = (st', inr b) /\
    tables st' = tables st /\
    (b = true -> views st' = <[v := sql]> (views st)) /\
    (b = false -> views st' = views st) /\
    (b = false <-> exists d e,
       execute ("CREATE OR REPLACE VIEW " ++ dq ++ v ++ dq ++ " AS " ++ sql) (conn st) = (d, inl e)).
Proof.
  unfold save_view, try_except, bind, on_conn, modify, ret. simpl.
  destruct (execute ("CREATE OR REPLACE VIEW " ++ dq ++ v ++ dq ++ " AS " ++ sql) (conn st))
    as [d [e|c]] eqn:E; simpl.
  - exists (mkEngine d (tables st) (views st)), false.
    split; [reflexivity|]. split; [reflexivity|]. split; [discriminate|].
    split; [reflexivity|]. split; [intros _; eauto | reflexivity].
  - exists (mkEngine d (tables st) (<[v := sql]> (views st))), true.
    split; [reflexivity|]. split; [reflexivity|]. split; [reflexivity|].
    split; [discriminate|]. split; [discriminate|].
    intros (d' & e' & E'). discriminate E'.
Qed.

(** [delete_view] never raises.  On [True] (DuckDB ran the
    [DROP VIEW IF EXISTS]) the name is no longer among the views; on
    [False] the views are as they were.  The table registry is never
    touched. *)
Theorem delete_view_outcome {DB} (execute : string -> M DB Cursor) (v : string) (st : Engine DB) :
  exists st' b, delete_view execute v st = (st', inr b) /\
    tables st' = tables st /\
    (b = true -> views st' = delete v (views st)) /\
    (b = false -> views st' = views st) /\
    (b = false <-> exists d e,
       execute ("DROP VIEW IF EXISTS " ++ dq ++ v ++ dq) (conn st) = (d, inl e)).
Proof.
  unfold delete_view, try_except, bind, on_conn, modify, ret. simpl.
  destruct (execute ("DROP VIEW IF EXISTS " ++ dq ++ v ++ dq) (conn st)) as [d [e|c]] eqn:E; simpl.
  - exists (mkEngine d (tables st) (views st)), false.
    split; [reflexivity|]. split; [reflexivity|]. split; [discriminate|].
    split; [reflexivity|]. split; [intros _; eauto | reflexivity].
  - exists (mkEngine d (tables st) (delete v (views st))), true.
    split; [reflexivity|]. split; [reflexivity|]. split; [reflexivity|].
    split; [discriminate|]. split; [discriminate|].
    intros (d' & e' & E'). discriminate E'.
Qed.

(** A view saved and then deleted is gone, whatever views existed
    before, provided both DuckDB statements succeed. *)
Theorem save_then_delete_view {DB} (execute : string -> M DB Cursor) (v sql : string)
  (st st1 st2 : Engine DB) :
  save_view execute v sql st = (st1, inr true) ->
  delete_view execute v st1 = (st2, inr true) ->
  views st2 !! v = None /\ tables st2 = tables st.
Proof.
  unfold save_view, delete_view, try_except, bind, on_conn, modify, ret. intros H1 H2.
  repeat (match goal with
          | Hm : context [match ?x with _ => _ end] |- _ => destruct x eqn:?; try discriminate Hm
          end); simplify_eq/=.
  split; [apply lookup_delete_eq | reflexivity].
Qed.

(** [export_to_csv] never raises and never changes the table registry or
    the views; it answers [False] exactly when DuckDB rejects the [COPY]
    statement.  A table name is quoted into [SELECT * FROM "<name>"]. *)
Theorem export_to_csv_outcome {DB} (execute : string -> M DB Cursor)
  (sql_or_table output_path : string) (is_sql : bool) (st : Engine DB) :
  let query := if is_sql then sql_or_table else "SELECT * FROM " ++ dq ++ sql_or_table ++ dq in
  exists st' b, export_to_csv execute sql_or_table output_path is_sql st = (st', inr b) /\
    tables st' = tables st /\ views st' = views st /\
    (b = false <-> exists d e,
       execute ("COPY (" ++ query ++ ") TO '" ++ output_path ++ "' (HEADER, DELIMITER ',')")
               (conn st) = (d, inl e)).
Proof.
  intros query. unfold export_to_csv, try_except, bind, on_conn, ret. fold query. simpl.
  destruct (execute ("COPY (" ++ query ++ ") TO '" ++ output_path ++ "' (HEADER, DELIMITER ',')")
              (conn st)) as [d [e|c]] eqn:E; simpl.
  - exists (mkEngine d (tables st) (views st)), false.
    split; [reflexivity|]. split; [reflexivity|]. split; [reflexivity|].
    split; [intros _; eauto | reflexivity].
  - exists (mkEngine d (tables st) (views st)), true.
    split; [reflexivity|]. split; [reflexivity|]. split; [reflexivity|].
    split; [discriminate|]. intros (d' & e' & E'). discriminate E'.
Qed.

Lemma save_then_delete_view_witness :
  save_view Fixtures.view_execute "v" "SELECT 1" Fixtures.empty_engine
    = (Fixtures.view_state1, inr true) /\
  delete_view Fixtures.view_execute "v" Fixtures.view_state1 = (Fixtures.view_state2, inr true) /\
  views Fixtures.view_state2 !! "v" = None /\
  tables Fixtures.view_state2 = tables Fixtures.empty_engine.
Proof.
  split; [vm_compute; reflexivity|]. split; [vm_compute; reflexivity|].
  apply (save_then_delete_view Fixtures.view_execute "v" "SELECT 1" Fixtures.empty_engine
           Fixtures.view_state1 Fixtures.view_state2); vm_compute; reflexivity.
Defined.

(* ------------------------------------------------------------------ *)
(** ** [_sanitize_table_name] is idempotent *)

Section SanitizeIdempotent.

Variables ch_isalnum ch_isdigit : Z -> bool.
Hypothesis ascii_classes : forall c : Z, (0 <= c < 128)%Z ->
  ch_isalnum c = Py.isalnum (Utf8.chr c) /\ ch_isdigit c = Py.isdigit (Utf8.chr c).
(** Python's alphanumeric characters are Unicode scalar values: no
    surrogate is alphanumeric. *)
Hypothesis alnum_scalar : forall c : Z, ch_isalnum c = true -> Utf8.scalar c.

Lemma map_sanitize_id (cps : list Z) :
  Forall (fun c => ch_isalnum c = true \/ c = 95%Z) cps ->
  map (sanitize_char ch_isalnum) cps = cps.
Proof.
  induction 1 as [|c cps Hc _ IH]; [reflexivity|].
  cbn [map]. rewrite IH. unfold sanitize_char.
  destruct Hc as [Hc|Hc]; [rewrite Hc; reflexivity|].
  subst c. destruct (ch_isalnum 95); reflexivity.
Qed.

(** Sanitizing a name twice gives the same as sanitizing it once: a
    derived table name ([t_] prefix, underscores, [table_1]) passes
    through [_sanitize_table_name] unchanged.  The character classes are
    Python's Unicode database: any classification that agrees with ASCII
    on ASCII and calls no surrogate alphanumeric. *)
Theorem sanitize_table_name_idempotent (name : string) :
  _sanitize_table_name ch_isalnum ch_isdigit (_sanitize_table_name ch_isalnum ch_isdigit name)
  = _sanitize_table_name ch_isalnum ch_isdigit name.
Proof.
  destruct (sanitize_table_name_shape ch_isalnum ch_isdigit ascii_classes name)
    as (cps & Hr & Hall & c & rest & Hc & Hd).
  rewrite Hr.
  assert (Hsc : Forall Utf8.scalar cps).
  { eapply Forall_impl; [exact Hall|]. intros x [Hx|Hx]; [exact (alnum_scalar x Hx)|].
    subst x. left. lia. }
  assert (Hnd : Forall (fun z => z <> 46%Z) cps).
  { eapply Forall_impl; [exact Hall|]. intros x [Hx|Hx] E; subst x; [|discriminate].
    rewrite (proj1 (ascii_classes 46 ltac:(lia))) in Hx. discriminate Hx. }
  unfold _sanitize_table_name at 1. cbv zeta.
  rewrite (stem_encode cps Hsc Hnd), (decode_encode cps Hsc), (map_sanitize_id cps Hall).
  subst cps. rewrite Hd. reflexivity.
Qed.

End SanitizeIdempotent.

(** With the fragment of the Unicode database of the fixtures,
    [données.csv] sanitizes to [données], which is its own sanitized
    form. *)
Lemma sanitize_table_name_idempotent_witness :
  _sanitize_table_name Fixtures.uc_isalnum Fixtures.uc_isdigit "données.csv" = "données" /\
  _sanitize_table_name Fixtures.uc_isalnum Fixtures.uc_isdigit
    (_sanitize_table_name Fixtures.uc_isalnum Fixtures.uc_isdigit "données.csv")
  = _sanitize_table_name Fixtures.uc_isalnum Fixtures.uc_isdigit "données.csv".
Proof.
  split; [vm_compute; reflexivity|].
  apply sanitize_table_name_idempotent.
  - intros c Hc. unfold Fixtures.uc_isalnum, Fixtures.uc_isdigit.
    destruct (Z.ltb_spec c 128); [split; reflexivity | lia].
  - intros c H. unfold Fixtures.uc_isalnum in H. unfold Utf8.scalar.
    destruct (Z.ltb_spec c 128).
    + destruct (Z.ltb_spec c 0); [|lia].
      replace (Utf8.chr c) with (Utf8.chr 0) in H
        by (destruct c; [lia | lia | reflexivity]).
      discriminate H.
    + apply orb_true_iff in H as [H|H]; repeat rewrite andb_true_iff in H;
        destruct_and? H; rewrite ?Z.leb_le in *; lia.
Defined.

(* ------------------------------------------------------------------ *)
(** ** Decoding messages: [Message.from_dict] *)



(* ------------------------------------------------------------------ *)
(** ** The shape of an [execute_query] result *)


(* ------------------------------------------------------------------ *)
(** ** The statistics [analyze_table] caches are well formed *)

Lemma dtype_total_bump (k : string) (l : list (string * Z)) :
  dtype_total (assoc_set k (default 0%Z (assoc_get k l) + 1)%Z l) = (dtype_total l + 1)%Z.
Proof.
  induction l as [|[k' v'] l IH]; simpl; [reflexivity|].
  destruct (String.eqb k k'); simpl; [lia | rewrite IH; lia].
Qed.

Lemma assoc_set_keys {A} (k x : string) (v : A) (l : list (string * A)) :
  In x (map fst (assoc_set k v l)) <-> x = k \/ In x (map fst l).
Proof.
  induction l as [|[k' v'] l IH]; simpl.
  - split; [intros [H|[]]; left; congruence | intros [H|[]]; left; congruence].
  - destruct (String.eqb k k') eqn:E; simpl.
    + apply String.eqb_eq in E. subst k'.
      split; [tauto|]. intros [->|H]; [left; reflexivity | exact H].
    + rewrite IH. tauto.
Qed.

Lemma assoc_set_nodup {A} (k : string) (v : A) (l : list (string * A)) :
  NoDup (map fst l) -> NoDup (map fst (assoc_set k v l)).
Proof.
  induction l as [|[k' v'] l IH]; simpl; intros Hnd.
  - constructor; [intros Hin; inversion Hin | constructor].
  - inversion Hnd as [|? ? Hnotin Hnd']; subst.
    destruct (String.eqb k k') eqn:E; simpl.
    + apply String.eqb_eq in E. subst k'. constructor; assumption.
    + constructor; [|exact (IH Hnd')].
      rewrite list_elem_of_In, assoc_set_keys. rewrite list_elem_of_In in Hnotin.
      apply String.eqb_neq in E. intros [H|H]; [congruence | exact (Hnotin H)].
Qed.

Lemma analyze_columns_shape {DB} (ac : string -> string -> string -> M (Engine DB) ColumnStats)
  (t : string) (cols : list (string * string)) :
  forall cs ns ds st st' cs' ns' ds',
  analyze_columns ac t cols (cs, ns, ds) st = (st', inr (cs', ns', ds')) ->
  length cs' = (length cs + length cols)%nat /\
  dtype_total ds' = (dtype_total ds + Z.of_nat (length cols))%Z /\
  (NoDup (map fst ds) -> NoDup (map fst ds')).
Proof.
  induction cols as [|[cn cd] cols IH]; intros cs ns ds st st' cs' ns' ds' H; simpl in H.
  - unfold ret in H. injection H as <- <- <- <-. simpl. split; [lia|]. split; [lia | auto].
  - unfold bind in H.
    destruct (ac t cn cd st) as [st1 [e|c]]; [discriminate H|].
    apply IH in H as (H1 & H2 & H3). rewrite length_app in H1. simpl in H1.
    rewrite dtype_total_bump in H2. simpl length.
    split; [lia|]. split; [lia|]. intros Hnd. apply H3, assoc_set_nodup, Hnd.
Qed.

(** Every table's statistics in the analyzer's cache are well formed
    ([stats_ok]), and [analyze_table] keeps it so: whether it serves the
    cache, computes fresh statistics or raises, every entry of the cache
    afterwards is well formed, and so are the statistics it returns. *)
Theorem analyze_table_cache_ok {DB} (ac : string -> string -> string -> M (Engine DB) ColumnStats)
  (t : string) (force : bool) (b b' : Backend DB) (r : Py.Exc + TableStats) :
  cache_ok b -> analyze_table ac t force b = (b', r) ->
  cache_ok b' /\ (forall s, r = inr s -> stats_ok t s).
Proof.
  intros Hok E. unfold analyze_table, bind, get, ret, raise, on_engine, modify, set_cache in E.
  destruct (if force then None else cache b !! t) as [cached|] eqn:Hc.
  - injection E as <- <-. split; [exact Hok|]. intros s [= <-].
    destruct force; [discriminate Hc | exact (Hok t cached Hc)].
  - unfold get_table_info in E. simpl in E.
    destruct (tables (engine b) !! t) as [info|] eqn:Ht; simpl in E.
    + destruct (analyze_columns ac t (ti_columns info) ([], [], []) (engine b))
        as [e1 [ex|[[cs ns] ds]]] eqn:Ea; simpl in E.
      { injection E as <- <-. split; [exact Hok | discriminate]. }
      destruct (_estimate_memory_usage t e1) as [e2 [ex|mu]] eqn:Em; simpl in E.
      { injection E as <- <-. split; [exact Hok | discriminate]. }
      injection E as <- <-.
      apply analyze_columns_shape in Ea as (H1 & H2 & H3). simpl in H1, H2.
      assert (Hs : stats_ok t (mkTableStats t (ti_row_count info)
                     (Z.of_nat (length (ti_columns info))) mu cs ns ds)).
      { unfold stats_ok. simpl. split; [reflexivity|]. split; [rewrite H1; reflexivity|].
        split; [exact H2 | apply H3; constructor]. }
      split; [|intros s [= <-]; exact Hs].
      intros k s Hk. simpl in Hk. destruct (decide (k = t)) as [->|Hne].
      * rewrite lookup_insert_eq in Hk. injection Hk as <-. exact Hs.
      * rewrite lookup_insert_ne in Hk by congruence. exact (Hok k s Hk).
    + injection E as <- <-. split; [exact Hok | discriminate].
Qed.

Lemma analyze_table_cache_ok_witness :
  cache_ok Fixtures.backend0 /\
  analyze_table Fixtures.col_stats_const "data" false Fixtures.backend0
    = (Fixtures.analyzed_backend, inr Fixtures.analyzed_stats) /\
  cache_ok Fixtures.analyzed_backend /\ stats_ok "data" Fixtures.analyzed_stats.
Proof.
  assert (H0 : cache_ok Fixtures.backend0).
  { intros k s Hk. vm_compute in Hk. discriminate Hk. }
  assert (E : analyze_table Fixtures.col_stats_const "data" false Fixtures.backend0
              = (Fixtures.analyzed_backend, inr Fixtures.analyzed_stats))
    by (vm_compute; reflexivity).
  destruct (analyze_table_cache_ok Fixtures.col_stats_const "data" false Fixtures.backend0
              Fixtures.analyzed_backend (inr Fixtures.analyzed_stats) H0 E) as [H1 H2].
  split; [exact H0|]. split; [exact E|]. split; [exact H1 | exact (H2 _ eq_refl)].
Defined.

(* ------------------------------------------------------------------ *)
(** ** [clear_cache] and the cache of [analyze_table] *)

Lemma analyze_table_miss {DB} (ac : string -> string -> string -> M (Engine DB) ColumnStats)
  (t : string) (b : Backend DB) :
  cache b !! t = None -> analyze_table ac t false b = analyze_table ac t true b.
Proof. intros H. unfold analyze_table, bind, get. simpl. rewrite H. reflexivity. Qed.

(** After [clear_cache(t)] (or [clear_cache()], or [clear_cache("")],
    which clear everything) the next [analyze_table(t)] recomputes the
    statistics exactly as [force_refresh=True] would.  [clear_cache(t)]
    with a non-empty [t] leaves every other table's cached statistics
    in place, and they are still served without touching the database.
    The engine and the [running] flag are never changed. *)
Theorem clear_cache_then_analyze {DB} (ac : string -> string -> string -> M (Engine DB) ColumnStats)
  (arg : option string) (t : string) (b : Backend DB) :
  let b1 := fst (clear_cache arg b) in
  snd (clear_cache arg b) = inr tt /\ engine b1 = engine b /\ running b1 = running b /\
  ((arg = None \/ arg = Some "" \/ arg = Some t) ->
   analyze_table ac t false b1 = analyze_table ac t true b1) /\
  (forall k s, arg = Some t -> t <> "" -> k <> t -> cache b !! k = Some s ->
   analyze_table ac k false b1 = (b1, inr s)).
Proof.
  intros b1. subst b1. unfold clear_cache.
  split; [destruct arg as [a|]; [destruct (String.eqb a ""); reflexivity | reflexivity]|].
  split; [destruct arg as [a|]; [destruct (String.eqb a ""); reflexivity | reflexivity]|].
  split; [destruct arg as [a|]; [destruct (String.eqb a ""); reflexivity | reflexivity]|].
  split.
  - intros Harg. apply analyze_table_miss.
    destruct Harg as [H0 | [H0 | H0]]; rewrite H0; simpl; [reflexivity | reflexivity|].
    destruct (String.eqb t "") eqn:E; [reflexivity|]. apply lookup_delete_eq.
  - intros k s -> Hne Hk Hc. apply String.eqb_neq in Hne. rewrite Hne.
    unfold analyze_table, bind, get, ret. simpl.
    rewrite lookup_delete_ne by congruence. rewrite Hc. reflexivity.
Qed.

(** [IPCClient.analyze_table] sends only [{"table_name": t}], so the
    worker never passes [force_refresh]: while the analyzer holds
    statistics for [t], the request is answered from the cache, with the
    worker's state left exactly as it was. *)
Theorem client_analyze_table_cached {DB} (env : Env DB) (rid t : string) (b : Backend DB)
  (s : TableStats) :
  cache b !! t = Some s ->
  _handle_message env (mkMessage rid ANALYZE_TABLE [("table_name", PStr t)]) b
  = (b, inr (mkResponse rid true (env_stats_dict env s) None)).
Proof.
  intros Hc. unfold _handle_message, try_except. simpl.
  unfold _handle_analyze_table, bind, item, get_or, as_str, ret. simpl.
  rewrite (analyze_table_hit (env_analyze_column_stats env) t b s Hc). reflexivity.
Qed.

Lemma client_analyze_table_cached_witness :
  cache Fixtures.analyzed_backend !! "data" = Some Fixtures.analyzed_stats /\
  _handle_message Fixtures.env (mkMessage "req_2" ANALYZE_TABLE [("table_name", PStr "data")])
    Fixtures.analyzed_backend
  = (Fixtures.analyzed_backend, inr (mkResponse "req_2" true PNone None)).
Proof.
  assert (H : cache Fixtures.analyzed_backend !! "data" = Some Fixtures.analyzed_stats)
    by (vm_compute; reflexivity).
  split; [exact H|].
  exact (client_analyze_table_cached Fixtures.env "req_2" "data" Fixtures.analyzed_backend
           Fixtures.analyzed_stats H).
Defined.

(* ------------------------------------------------------------------ *)
(** ** [get_column_distribution]: errors are reported, never raised *)

Lemma try_except_total {S A} (m : M S A) (h : Py.Exc -> M S A) (s : S) :
  (forall e s1, exists s2 a, h e s1 = (s2, inr a)) -> exists s' a, try_except m h s = (s', inr a).
Proof.
  intros Hh. unfold try_except.
  destruct (m s) as [s1 [e|a]]; [apply Hh | eexists _, _; reflexivity].
Qed.

Lemma numeric_distribution_total {DB} (execute : string -> M DB Cursor) (t c : string) (bins : Z)
  (result : list (string * PyVal)) (d : DB) :
  exists d' r, numeric_distribution execute t c bins result d = (d', inr r).
Proof.
  unfold numeric_distribution.
  apply try_except_total. intros e d1. eexists _, _. reflexivity.
Qed.

Lemma categorical_distribution_total {DB} (execute : string -> M DB Cursor) (t c : string)
  (result : list (string * PyVal)) (d : DB) :
  exists d' r, categorical_distribution execute t c result d = (d', inr r).
Proof.
  unfold categorical_distribution.
  apply try_except_total. intros e d1. eexists _, _. reflexivity.
Qed.

(** [get_column_distribution] never raises and never changes the table
    registry or the views.  For a table or column that does not exist it
    answers [{"error": "列不存在: <column>"}] without
    sending anything to DuckDB. *)
Theorem get_column_distribution_total {DB} (execute : string -> M DB Cursor)
  (t c : string) (bins : Z) (st : Engine DB) :
  exists st' r, get_column_distribution execute t c bins st = (st', inr r) /\
    tables st' = tables st /\ views st' = views st /\
    ((forall info, tables st !! t = Some info -> find_column c (ti_columns info) = None) ->
     st' = st /\ r = PDict [("error", PStr ("列不存在: " ++ c))]).
Proof.
  unfold get_column_distribution, get_table_info, bind, ret. simpl.
  destruct (tables st !! t) as [info|] eqn:Ht.
  - destruct (find_column c (ti_columns info)) as [[n dt]|] eqn:Hf.
    + unfold on_conn.
      destruct (_is_numeric_dtype dt).
      * destruct (numeric_distribution_total execute t c bins
                    [("table_name", PStr t); ("column_name", PStr c); ("dtype", PStr dt)] (conn st))
          as (d' & r & E). rewrite E. simpl.
        eexists _, _. split; [reflexivity|]. split; [reflexivity|]. split; [reflexivity|].
        intros H. specialize (H info eq_refl). congruence.
      * destruct (categorical_distribution_total execute t c
                    [("table_name", PStr t); ("column_name", PStr c); ("dtype", PStr dt)] (conn st))
          as (d' & r & E). rewrite E. simpl.
        eexists _, _. split; [reflexivity|]. split; [reflexivity|]. split; [reflexivity|].
        intros H. specialize (H info eq_refl). congruence.
    + eexists _, _. split; [reflexivity|]. split; [reflexivity|]. split; [reflexivity|].
      intros _. split; reflexivity.
  - eexists _, _. split; [reflexivity|]. split; [reflexivity|]. split; [reflexivity|].
    intros _. split; reflexivity.
Qed.

(** With [bins=0] on a numeric column whose minimum and maximum differ,
    [(max_val - min_val) / bins] raises ZeroDivisionError inside the
    [try], and no histogram query is sent: the result dict gets
    ["error": "division by zero"] on an integer column (two [int]s) and
    ["error": "float division by zero"] on a DOUBLE column (two
    [float]s), and no histogram. *)
Theorem numeric_distribution_zero_bins {DB} (execute : string -> M DB Cursor) (t c : string)
  (result : list (string * PyVal)) (d d1 : DB) (cur : Cursor) (mn mx : Value)
  (rest : list (list Value)) :
  execute (minmax_sql t c) d = (d1, inr cur) -> rows cur = [mn; mx] :: rest ->
  ((exists a b : Z, mn = VInt a /\ mx = VInt b /\ a <> b) ->
   numeric_distribution execute t c 0 result d
   = (d1, inr (assoc_set "error" (PStr "division by zero") result))) /\
  ((exists p q : Q, mn = VNum p /\ mx = VNum q /\ ~ (q == p)%Q) ->
   numeric_distribution execute t c 0 result d
   = (d1, inr (assoc_set "error" (PStr "float division by zero") result))).
Proof.
  intros Ex Hr.
  unfold numeric_distribution, try_except, bind. rewrite Ex.
  unfold fetch_pair. rewrite Hr. unfold ret, of_sum, bin_width_of.
  split.
  - intros (a & b & -> & -> & Hab). cbn [num_of_value].
    destruct (Qeq_bool (inject_Z b) (inject_Z a)) eqn:Eq; [|reflexivity].
    exfalso. apply Qeq_bool_eq in Eq. unfold Qeq in Eq. simpl in Eq. lia.
  - intros (p & q & -> & -> & Hpq). cbn [num_of_value].
    destruct (Qeq_bool q p) eqn:Eq; [|reflexivity].
    apply Qeq_bool_eq in Eq. contradiction.
Qed.

Lemma numeric_distribution_zero_bins_witness :
  numeric_distribution Fixtures.hist_execute "t" "x" 0 [] tt
  = (tt, inr [("error", PStr "division by zero")]).
Proof.
  refine (proj1 (numeric_distribution_zero_bins Fixtures.hist_execute "t" "x" [] tt tt
           (mkCursor ["min(x)"; "max(x)"] [[VInt 0; VInt 90]]) (VInt 0) (VInt 90) [] _ _) _).
  - vm_compute. reflexivity.
  - reflexivity.
  - exists 0%Z, 90%Z. split; [reflexivity|]. split; [reflexivity | lia].
Defined.

(* ------------------------------------------------------------------ *)
(** ** Requests without their required key *)

(** A request that lacks the first key its handler reads with
    [payload[...]] gets a failed response whose error is [str(KeyError)],
    the quoted key, and the worker's state is left as it was. *)
Theorem handle_message_missing_key {DB} (env : Env DB) (rid : string) (t : MessageType)
  (p : Payload) (k : string) (b : Backend DB) :
  required_key t = Some k -> assoc_get k p = None ->
  _handle_message env (mkMessage rid t p) b
  = (b, inr (mkResponse rid false PNone (Some ("'" ++ k ++ "'")))).
Proof.
  intros Hk Hp. unfold _handle_message, try_except.
  destruct t; simpl in Hk; try discriminate Hk; injection Hk as <-; simpl;
    unfold _handle_load_csv, _handle_drop_table, _handle_get_table_info, _handle_execute_query,
      _handle_get_table_data, _handle_save_view, _handle_delete_view, _handle_analyze_table,
      _handle_analyze_column, _handle_get_missing_report, _handle_get_numeric_summary,
      _handle_get_column_distribution, _handle_export_csv, bind, item;
    rewrite Hp; reflexivity.
Qed.

Lemma handle_message_missing_key_witness :
  _handle_message Fixtures.env (mkMessage "req_3" EXECUTE_QUERY [("limit", PInt 10)])
    Fixtures.backend0
  = (Fixtures.backend0, inr (mkResponse "req_3" false PNone (Some "'sql'"))).
Proof.
  apply (handle_message_missing_key Fixtures.env "req_3" EXECUTE_QUERY [("limit", PInt 10)] "sql"
           Fixtures.backend0); reflexivity.
Defined.

(* ------------------------------------------------------------------ *)
(** ** [_categorize_dtype] *)

(** The integer test comes first and is a substring test: every type
    name whose lower-case form contains [int] (such as [INTERVAL] or
    [POINT]) is categorized ["integer"] and treated as numeric. *)
Theorem categorize_dtype_int (dtype : string) :
  Py.contains "int" (Py.lower dtype) = true ->
  _categorize_dtype dtype = "integer" /\ _is_numeric_dtype dtype = true.
Proof.
  intros H. unfold _is_numeric_dtype, _categorize_dtype, any_in. simpl. rewrite H. simpl.
  split; reflexivity.
Qed.

Lemma categorize_dtype_int_witness :
  Py.contains "int" (Py.lower "INTERVAL") = true /\
  _categorize_dtype "INTERVAL" = "integer" /\ _is_numeric_dtype "INTERVAL" = true.
Proof.
  assert (H : Py.contains "int" (Py.lower "INTERVAL") = true) by (vm_compute; reflexivity).
  split; [exact H | exact (categorize_dtype_int "INTERVAL" H)].
Defined.

(* ------------------------------------------------------------------ *)
(** ** [IPCClient.send_message]: the signalled path and the request ids *)

Lemma find_app_opt {A} (f : A -> bool) (l1 l2 : list A) :
  List.find f (l1 ++ l2) = match List.find f l1 with Some x => Some x | None => List.find f l2 end.
Proof. induction l1 as [|x l1 IH]; simpl; [reflexivity|]. destruct (f x); [reflexivity | exact IH]. Qed.

Lemma last_for_app (rid : string) (l1 l2 : list Response) :
  last_for rid (l1 ++ l2) = match last_for rid l2 with Some r => Some r | None => last_for rid l1 end.
Proof. unfold last_for. rewrite rev_app_distr, find_app_opt. reflexivity. Qed.

Lemma deliver_all_app (c : Client) (l1 l2 : list Response) :
  deliver_all c (l1 ++ l2) = deliver_all (deliver_all c l1) l2.
Proof. unfold deliver_all. apply fold_left_app. Qed.

Lemma deliver_all_responses (c : Client) (rs : list Response) (k : string) :
  responses (deliver_all c rs) !! k
  = match last_for k rs with Some r => Some r | None => responses c !! k end.
Proof.
  revert c. induction rs as [|r rs IH] using rev_ind; intros c; [reflexivity|].
  rewrite deliver_all_app, last_for_app. unfold deliver_all at 1. simpl.
  unfold last_for at 1. simpl. destruct (String.eqb (request_id r) k) eqn:E.
  - apply String.eqb_eq in E. subst k. unfold deliver. simpl. apply lookup_insert_eq.
  - apply String.eqb_neq in E. unfold deliver. simpl. rewrite lookup_insert_ne by exact E.
    apply IH.
Qed.

Lemma deliver_all_counter_queue (c : Client) (rs : list Response) :
  request_id_counter (deliver_all c rs) = request_id_counter c /\
  request_queue (deliver_all c rs) = request_queue c.
Proof.
  revert c. induction rs as [|r rs IH]; intros c; [split; reflexivity|].
  change (deliver_all c (r :: rs)) with (deliver_all (deliver c r) rs). exact (IH (deliver c r)).
Qed.

Lemma deliver_all_signal_kept (c : Client) (rs : list Response) (rid : string) :
  pending_requests c !! rid = Some true -> pending_requests (deliver_all c rs) !! rid = Some true.
Proof.
  revert c. induction rs as [|r rs IH]; intros c H; [exact H|].
  change (deliver_all c (r :: rs)) with (deliver_all (deliver c r) rs). apply IH. unfold deliver. simpl.
  destruct (pending_requests c !! request_id r) eqn:E; [|exact H].
  destruct (decide (request_id r = rid)) as [->|Hne].
  - apply lookup_insert_eq.
  - rewrite lookup_insert_ne by exact Hne. exact H.
Qed.

Lemma deliver_all_signals (c : Client) (rs : list Response) (rid : string) :
  Exists (fun r => request_id r = rid) rs -> is_Some (pending_requests c !! rid) ->
  pending_requests (deliver_all c rs) !! rid = Some true.
Proof.
  revert c. induction rs as [|r rs IH]; intros c Hex [x H]; [inversion Hex|].
  change (deliver_all c (r :: rs)) with (deliver_all (deliver c r) rs). inversion Hex as [? ? Hr|? ? Hrs]; subst.
  - apply deliver_all_signal_kept. unfold deliver. simpl. rewrite H. apply lookup_insert_eq.
  - apply (IH _ Hrs). unfold deliver. simpl.
    destruct (pending_requests c !! request_id r) eqn:E.
    + destruct (decide (request_id r = rid)) as [Heq|Hne].
      * rewrite Heq, lookup_insert_eq. eexists; reflexivity.
      * rewrite lookup_insert_ne by exact Hne. rewrite H. eexists; reflexivity.
    + rewrite H. eexists; reflexivity.
Qed.

Lemma last_for_exists (rid : string) (l : list Response) :
  Exists (fun r => request_id r = rid) l -> exists r, last_for rid l = Some r /\ request_id r = rid.
Proof.
  intros Hex. unfold last_for.
  destruct (List.find (fun r => String.eqb (request_id r) rid) (rev l)) as [r|] eqn:E.
  - apply find_some in E as [_ E]. apply String.eqb_eq in E. eauto.
  - apply Exists_exists in Hex as (x & Hx & Hid). apply list_elem_of_In in Hx.
    pose proof (find_none _ _ E x (proj1 (in_rev l x) Hx)) as Hf. simpl in Hf.
    rewrite Hid, String.eqb_refl in Hf. discriminate Hf.
Qed.

(** When a response for the generated id [req_<n>] arrives while
    [event.wait(timeout)] blocks, [send_message] returns the response the
    listener stored last for that id, counting those stored after the
    wait ended too, and on return neither [_pending_requests] nor
    [_responses] keeps an entry for the id. *)
Theorem send_message_signalled (msg_type : MessageType) (p : Payload)
  (during_wait after_wait : list Response) (c : Client) :
  let rid := "req_" ++ Py.str_nat (S (request_id_counter c)) in
  Exists (fun r => request_id r = rid) during_wait ->
  exists c' r, send_message msg_type p during_wait after_wait c = (c', r) /\
    last_for rid (during_wait ++ after_wait) = Some r /\ request_id r = rid /\
    pending_requests c' !! rid = None /\ responses c' !! rid = None.
Proof.
  intros rid Hex. unfold send_message, _generate_request_id. cbn zeta beta iota. fold rid.
  rewrite (deliver_all_signals _ during_wait rid Hex)
    by (simpl; rewrite lookup_insert_eq; eexists; reflexivity).
  rewrite <- deliver_all_app, deliver_all_responses.
  destruct (last_for_exists rid (during_wait ++ after_wait)) as (r & Hr & Hid).
  { apply Exists_app. left. exact Hex. }
  rewrite Hr. eexists _, r. split; [reflexivity|]. split; [reflexivity|]. split; [exact Hid|].
  simpl. split; apply lookup_delete_eq.
Qed.

Lemma send_message_signalled_witness :
  Exists (fun r => request_id r = "req_1") [mkResponse "req_1" true (PBool true) None] /\
  exists c' r, send_message SHUTDOWN [] [mkResponse "req_1" true (PBool true) None]
                 [mkResponse "req_9" true PNone None] (mkClient 0 ∅ ∅ []) = (c', r) /\
    last_for "req_1" ([mkResponse "req_1" true (PBool true) None] ++
                      [mkResponse "req_9" true PNone None]) = Some r /\
    request_id r = "req_1" /\
    pending_requests c' !! "req_1" = None /\ responses c' !! "req_1" = None.
Proof.
  assert (H : Exists (fun r => request_id r = "req_1") [mkResponse "req_1" true (PBool true) None])
    by (constructor; reflexivity).
  split; [exact H|].
  exact (send_message_signalled SHUTDOWN [] [mkResponse "req_1" true (PBool true) None]
           [mkResponse "req_9" true PNone None] (mkClient 0 ∅ ∅ []) H).
Defined.

Lemma send_message_request (msg_type : MessageType) (p : Payload)
  (during_wait after_wait : list Response) (c : Client) :
  let rid := "req_" ++ Py.str_nat (S (request_id_counter c)) in
  request_id_counter (fst (send_message msg_type p during_wait after_wait c))
    = S (request_id_counter c) /\
  request_queue (fst (send_message msg_type p during_wait after_wait c))
    = (request_queue c ++ [to_dict (mkMessage rid msg_type p)])%list.
Proof.
  intros rid. unfold send_message, _generate_request_id. cbn zeta beta iota. fold rid.
  match goal with |- context [deliver_all ?c1 during_wait] =>
    destruct (deliver_all_counter_queue c1 during_wait) as [B1 B2];
    destruct (deliver_all_counter_queue (deliver_all c1 during_wait) after_wait) as [A1 A2];
    set (c2 := deliver_all (deliver_all c1 during_wait) after_wait) in *;
    set (c1' := deliver_all c1 during_wait) in * end.
  repeat match goal with |- context [match ?x with _ => _ end] => destruct x end;
    simpl; rewrite A1, A2, B1, B2; split; reflexivity.
Qed.

(** Two successive [send_message] calls on the same client put two
    messages on the request queue, in call order, with different request
    ids, whatever came back for the first one. *)
Theorem send_message_fresh_ids (t1 t2 : MessageType) (p1 p2 : Payload)
  (dw1 aw1 dw2 aw2 : list Response) (c : Client) :
  let c1 := fst (send_message t1 p1 dw1 aw1 c) in
  let c2 := fst (send_message t2 p2 dw2 aw2 c1) in
  exists i1 i2,
    request_queue c2 = (request_queue c ++ [to_dict (mkMessage i1 t1 p1);
                                            to_dict (mkMessage i2 t2 p2)])%list /\
    i1 <> i2.
Proof.
  intros c1 c2.
  destruct (send_message_request t1 p1 dw1 aw1 c) as [N1 Q1].
  destruct (send_message_request t2 p2 dw2 aw2 c1) as [N2 Q2].
  fold c1 in N1, Q1. fold c2 in Q2. rewrite Q2, Q1, N1, <- app_assoc.
  eexists _, _. split; [reflexivity|].
  intros Heq. apply string_app_cancel_l, str_nat_inj in Heq. lia.
Qed.

(* ------------------------------------------------------------------ *)
(** ** The worker: a loaded table is listed; the loop stops at [shutdown] *)

(** A table the worker has just loaded is among those [get_tables]
    lists and is what [get_table_info] returns for its name; neither
    request changes the worker's state. *)
Theorem load_then_listed {DB} (env : Env DB) (p : Payload) (b b' : Backend DB) (v : PyVal) :
  _handle_load_csv env p b = (b', inr v) ->
  exists info, v = info_dict info /\
    _handle_get_table_info (DB := DB) [("table_name", PStr (ti_name info))] b' = (b', inr v) /\
    exists l, _handle_get_tables (DB := DB) [] b' = (b', inr (PList l)) /\ In v l.
Proof.
  intros H. unfold _handle_load_csv, bind, item, get_or, as_str, ret, raise, on_engine in H.
  repeat (match goal with
          | Hm : context [match ?x with _ => _ end] |- _ => destruct x eqn:?; try discriminate Hm
          end); simplify_eq/=.
  match goal with Hl : load_csv _ _ _ _ _ _ _ _ _ = (_, inr ?i) |- _ =>
    destruct (load_csv_success _ _ _ _ _ _ _ _ _ _ _ Hl) as [_ Ht]; exists i end.
  split; [reflexivity|]. split.
  - unfold _handle_get_table_info, bind, item, as_str, on_engine, get_table_info, ret. simpl.
    rewrite Ht, lookup_insert_eq. reflexivity.
  - unfold _handle_get_tables, bind, get, ret. simpl. eexists. split; [reflexivity|].
    apply in_map_iff. eexists (_, _). split; [reflexivity|].
    apply list_elem_of_In, elem_of_map_to_list. rewrite Ht. apply lookup_insert_eq.
Qed.

Lemma load_then_listed_witness :
  _handle_load_csv Fixtures.env Fixtures.load_payload Fixtures.empty_backend
    = (Fixtures.loaded_backend, Fixtures.loaded_result) /\
  exists v, Fixtures.loaded_result = inr v /\
  exists info, v = info_dict info /\
    _handle_get_table_info [("table_name", PStr (ti_name info))] Fixtures.loaded_backend
      = (Fixtures.loaded_backend, inr v) /\
    exists l, _handle_get_tables [] Fixtures.loaded_backend
                = (Fixtures.loaded_backend, inr (PList l)) /\ In v l.
Proof.
  assert (E : _handle_load_csv Fixtures.env Fixtures.load_payload Fixtures.empty_backend
              = (Fixtures.loaded_backend, Fixtures.loaded_result)) by (vm_compute; reflexivity).
  split; [exact E|].
  destruct Fixtures.loaded_result as [e|v] eqn:Er; [vm_compute in Er; discriminate Er|].
  exists v. split; [reflexivity|].
  exact (load_then_listed Fixtures.env Fixtures.load_payload Fixtures.empty_backend
           Fixtures.loaded_backend v E).
Defined.

(** Every handler other than [_handle_shutdown] leaves [running] as it
    found it, whether it returns or raises. *)
Lemma handler_keeps_running {DB} (env : Env DB) (t : MessageType)
  (h : Payload -> M (Backend DB) PyVal) (p : Payload) :
  handler env t = Some h -> t <> SHUTDOWN -> keeps_running (h p).
Proof.
  intros Hh Hne. destruct t; simpl in Hh; try discriminate Hh; injection Hh as <-;
    try (exfalso; apply Hne; reflexivity);
    unfold _handle_load_csv, _handle_drop_table, _handle_get_tables, _handle_get_table_info,
      _handle_execute_query, _handle_get_table_data, _handle_save_view, _handle_get_views,
      _handle_delete_view, _handle_analyze_table, _handle_analyze_column,
      _handle_get_missing_report, _handle_get_numeric_summary,
      _handle_get_column_distribution, _handle_export_csv;
    running_frame.
Qed.

Lemma worker_iteration_step {DB} (env : Env DB) (m : Message) (b : Backend DB)
  (q : list Response) :
  type m <> SHUTDOWN ->
  exists b' r, worker_iteration env (to_dict m) (b, q) = (b', (q ++ [r])%list) /\
    request_id r = id m /\ running b' = running b.
Proof.
  intros Hne. unfold worker_iteration. rewrite from_dict_to_dict.
  unfold _handle_message, try_except, bind, ret.
  destruct (handler env (type m)) as [h|] eqn:Hh.
  - pose proof (handler_keeps_running env (type m) h (payload m) Hh Hne b) as K.
    destruct (h (payload m) b) as [b1 [e|res]]; simpl in K.
    + eexists b1, _. split; [reflexivity|]. split; [reflexivity | exact K].
    + eexists b1, _. split; [reflexivity|]. split; [reflexivity | exact K].
  - eexists b, _. split; [reflexivity|]. split; reflexivity.
Qed.

(** The worker loop, started with [running] set, answers each message
    before a [shutdown] request with exactly one response carrying its
    id, in order; it answers the [shutdown] with [success=True,
    data=True], clears [running] and handles none of the messages queued
    after it. *)
Theorem worker_run_until_shutdown {DB} (env : Env DB) (ms : list Message) (sid : string)
  (sp : Payload) (rest : list MessageDict) (b : Backend DB) (q : list Response) :
  running b = true -> Forall (fun m => type m <> SHUTDOWN) ms ->
  exists b' rs,
    worker_run env ((map to_dict ms ++ to_dict (mkMessage sid SHUTDOWN sp) :: rest)%list) (b, q)
    = (b', (q ++ rs ++ [mkResponse sid true (PBool true) None])%list) /\
    map request_id rs = map id ms /\ running b' = false.
Proof.
  revert b q. induction ms as [|m ms IH]; intros b q Hrun Hall.
  - simpl. rewrite Hrun. simpl.
    exists (mkBackend (engine b) (cache b) false), [].
    split; [destruct rest; reflexivity|]. split; reflexivity.
  - inversion Hall as [|? ? Hm Hms]; subst.
    destruct (worker_iteration_step env m b q Hm) as (b1 & r & E & Hid & Hr1).
    cbn [map app worker_run fst]. rewrite Hrun, E.
    destruct (IH b1 (q ++ [r])%list ltac:(congruence) Hms) as (b' & rs & E' & Hids & Hoff).
    exists b', (r :: rs). rewrite E', <- app_assoc. split; [reflexivity|].
    split; [simpl; rewrite Hid, Hids; reflexivity | exact Hoff].
Qed.

Lemma worker_run_until_shutdown_witness :
  running Fixtures.backend0 = true /\
  Forall (fun m => type m <> SHUTDOWN) [mkMessage "req_1" GET_TABLES []] /\
  exists b' rs,
    worker_run Fixtures.env
      ((map to_dict [mkMessage "req_1" GET_TABLES []] ++
        to_dict (mkMessage "req_2" SHUTDOWN []) :: [to_dict (mkMessage "req_3" GET_VIEWS [])])%list)
      (Fixtures.backend0, [])
    = (b', ([] ++ rs ++ [mkResponse "req_2" true (PBool true) None])%list) /\
    map request_id rs = map id [mkMessage "req_1" GET_TABLES []] /\ running b' = false.
Proof.
  assert (H1 : running Fixtures.backend0 = true) by reflexivity.
  assert (H2 : Forall (fun m => type m <> SHUTDOWN) [mkMessage "req_1" GET_TABLES []])
    by (constructor; [discriminate | constructor]).
  split; [exact H1|]. split; [exact H2|].
  exact (worker_run_until_shutdown Fixtures.env [mkMessage "req_1" GET_TABLES []] "req_2" []
           [to_dict (mkMessage "req_3" GET_VIEWS [])] Fixtures.backend0 [] H1 H2).
Defined.

(** A message dict whose ["type"] is the value of no [MessageType] gets
    no response at all: the decoding error is only printed, and the
    worker's state and response queue stay as they were. *)
Theorem worker_ignores_unknown_type {DB} (env : Env DB) (d : MessageDict) (b : Backend DB)
  (q : list Response) :
  (forall t, value t <> d_type d) -> worker_iteration env d (b, q) = (b, q).
Proof.
  intros Hno. unfold worker_iteration, from_dict, message_type_of.
  destruct (List.find (fun t => String.eqb (value t) (d_type d)) all_message_types)
    as [t|] eqn:E; [|reflexivity].
  apply find_some in E as [_ E]. apply String.eqb_eq in E. exfalso. exact (Hno t E).
Qed.

Lemma worker_ignores_unknown_type_witness :
  (forall t, value t <> "LOAD_CSV") /\
  worker_iteration Fixtures.env (mkMessageDict "req_4" "LOAD_CSV" Fixtures.load_payload)
    (Fixtures.backend0, []) = (Fixtures.backend0, []).
Proof.
  assert (H : forall t, value t <> "LOAD_CSV") by (intros t; destruct t; discriminate).
  split; [exact H|].
  exact (worker_ignores_unknown_type Fixtures.env (mkMessageDict "req_4" "LOAD_CSV" Fixtures.load_payload)
           Fixtures.backend0 [] H).
Defined.

(** [analyze_table] on a name that is neither cached (or is refreshed)
    nor registered raises [ValueError("表不存在: <name>")]
    and changes nothing: no column is analyzed and nothing is cached. *)
Theorem analyze_table_missing {DB} (ac : string -> string -> string -> M (Engine DB) ColumnStats)
  (t : string) (force : bool) (b : Backend DB) :
  (force = true \/ cache b !! t = None) -> tables (engine b) !! t = None ->
  analyze_table ac t force b = (b, inl (Py.mkExc "ValueError" ("表不存在: " ++ t))).
Proof.
  intros Hc Ht. unfold analyze_table, bind, get, raise, on_engine, get_table_info.
  destruct force; [|destruct Hc as [Hc|Hc]; [discriminate Hc | simpl; rewrite Hc]];
    simpl; rewrite Ht; destruct b; reflexivity.
Qed.

Lemma analyze_table_missing_witness :
  (true = true \/ cache Fixtures.analyzed_backend !! "sales" = None) /\
  tables (engine Fixtures.analyzed_backend) !! "sales" = None /\
  analyze_table Fixtures.col_stats_const "sales" true Fixtures.analyzed_backend
  = (Fixtures.analyzed_backend, inl (Py.mkExc "ValueError" "表不存在: sales")).
Proof.
  assert (H1 : true = true \/ cache Fixtures.analyzed_backend !! "sales" = None) by (left; reflexivity).
  assert (H2 : tables (engine Fixtures.analyzed_backend) !! "sales" = None)
    by (vm_compute; reflexivity).
  split; [exact H1|]. split; [exact H2|].
  exact (analyze_table_missing Fixtures.col_stats_const "sales" true Fixtures.analyzed_backend H1 H2).
Defined.

(** A view the worker saved ([save_view] answered [True]) is listed by
    [get_views] with the SQL text it was saved with. *)
Theorem save_view_listed {DB} (env : Env DB) (p : Payload) (b b' : Backend DB) :
  _handle_save_view env p b = (b', inr (PBool true)) ->
  exists v sql, assoc_get "view_name" p = Some (PStr v) /\ assoc_get "sql" p = Some (PStr sql) /\
    exists l, _handle_get_views (DB := DB) [] b' = (b', inr (PDict l)) /\ In (v, PStr sql) l.
Proof.
  intros H. unfold _handle_save_view, save_view, bind, item, as_str, ret, raise, on_engine,
    on_conn, try_except, modify in H.
  repeat (match goal with
          | Hm : context [match ?x with _ => _ end] |- _ => destruct x eqn:?; try discriminate Hm
          end); simplify_eq/=.
  eexists _, _. split; [first [reflexivity | eassumption]|]. split; [first [reflexivity | eassumption]|].
  unfold _handle_get_views, bind, get, ret. simpl. eexists. split; [reflexivity|].
  apply in_map_iff. eexists (_, _). split; [reflexivity|].
  apply list_elem_of_In, elem_of_map_to_list. simpl. apply lookup_insert_eq.
Qed.

Lemma save_view_listed_witness :
  _handle_save_view Fixtures.view_env Fixtures.view_payload Fixtures.empty_backend
    = (Fixtures.viewed_backend, inr (PBool true)) /\
  exists v sql, assoc_get "view_name" Fixtures.view_payload = Some (PStr v) /\
    assoc_get "sql" Fixtures.view_payload = Some (PStr sql) /\
    exists l, _handle_get_views (DB := unit) [] Fixtures.viewed_backend
                = (Fixtures.viewed_backend, inr (PDict l)) /\ In (v, PStr sql) l.
Proof.
  assert (E : _handle_save_view Fixtures.view_env Fixtures.view_payload Fixtures.empty_backend
              = (Fixtures.viewed_backend, inr (PBool true))) by (vm_compute; reflexivity).
  split; [exact E|].
  exact (save_view_listed Fixtures.view_env Fixtures.view_payload Fixtures.empty_backend
           Fixtures.viewed_backend E).
Defined.

(* ------------------------------------------------------------------ *)
(** ** [get_table_data] is always paginated *)

Lemma list_ascii_of_string_app (a b : string) :
  list_ascii_of_string (a ++ b) = (list_ascii_of_string a ++ list_ascii_of_string b)%list.
Proof. induction a as [|c a IH]; simpl; [reflexivity | rewrite IH; reflexivity]. Qed.

Lemma rev_string_snoc (s : string) (c : ascii) :
  Py.rev_string (s ++ String c EmptyString) = String c (Py.rev_string s).
Proof.
  unfold Py.rev_string. rewrite list_ascii_of_string_app. simpl.
  rewrite rev_app_distr. reflexivity.
Qed.

Lemma rev_string_involutive (s : string) : Py.rev_string (Py.rev_string s) = s.
Proof.
  unfold Py.rev_string. rewrite list_ascii_of_string_of_list_ascii, rev_involutive.
  apply string_of_list_ascii_of_string.
Qed.

Lemma lstrip_nonspace (c : ascii) (s : string) :
  Py.isspace c = false -> Py.lstrip (String c s) = String c s.
Proof. intros H. simpl. rewrite H. reflexivity. Qed.

Lemma string_app_assoc (a b c : string) : (a ++ b) ++ c = a ++ (b ++ c).
Proof.
  induction a as [|x a IH]; [reflexivity|].
  change (String x ((a ++ b) ++ c) = String x (a ++ (b ++ c))). rewrite IH. reflexivity.
Qed.

(** Whatever the table name, the query [get_table_data] builds,
    [SELECT * FROM "<name>"], is recognised as a [SELECT] by
    [execute_query]: table data is always counted and paginated with
    [LIMIT] and [OFFSET]. *)
Theorem get_table_data_is_select (t : string) : is_select ("SELECT * FROM " ++ dq ++ t ++ dq) = true.
Proof.
  set (s := "SELECT * FROM " ++ dq ++ t ++ dq).
  assert (Hl : Py.lstrip s = s) by reflexivity.
  assert (Hs : s = ("SELECT * FROM " ++ dq ++ t) ++ String (ascii_of_nat 34) EmptyString).
  { subst s. rewrite !string_app_assoc. reflexivity. }
  assert (Hr : Py.strip s = s).
  { unfold Py.strip. rewrite Hl. rewrite Hs at 1. rewrite rev_string_snoc.
    rewrite lstrip_nonspace by reflexivity.
    rewrite <- rev_string_snoc, <- Hs. apply rev_string_involutive. }
  unfold is_select. rewrite Hr. reflexivity.
Qed.
